(** * Vendor sales summary: a model of [get_vendor_summary.py]

    The script reads three base tables of a SQLite store, aggregates them
    with one SQL query, post-processes the result with pandas and writes it
    back as the table [vendor_sales_summary].

    The development follows the script:
    - [Py]      Python results and exceptions, strings, [str.strip];
    - [Sql]     SQLite values, the rows of the base tables, GROUP BY and
                LEFT JOIN;
    - [Pd]      pandas scalars, series with their dtype, frames;
    - the store and its connection, the helper functions [table_columns],
      [detect_product_column] and [verify_and_create_tables];
    - [create_vendor_summary]: the query text, what the query computes, and
      how pandas reads its rows;
    - the heap of frames, [clean_data], [ingest_db] and the main script.

    What the model takes from the libraries under the script:
    - SQLite: NULL equals nothing in an ON clause and groups with NULL in
      GROUP BY; SUM skips NULL and is NULL over no value; ORDER BY puts NULL
      below every number.  Identifier columns hold an integer or NULL and
      the summed columns a number or NULL; the columns passed through
      (names, prices, Volume) hold any value.
    - pandas (1.x and 2.x, where text lives in columns of dtype object): a
      column read from SQL is int64 when it holds integers only, float64 when
      it holds numbers and NULLs (read as NaN), object otherwise.
    - Numbers are exact: an int64 cell is a [Z], a float64 cell a [Q] or one
      of NaN, +inf, -inf.  Rounding of float64 and the range of int64 are
      outside the model (SQLite aborts a SUM that leaves the 64-bit range). *)

From Stdlib Require Import ZArith QArith String Ascii List Lia.
From stdpp Require Import base option list strings sorting.

Import ListNotations.
Open Scope string_scope.
Open Scope list_scope.

(* ===================================================================== *)
(** ** Python: results, exceptions, strings *)
(* ===================================================================== *)

Module Py.

(** The exceptions the script and the libraries under it can raise. *)
Inductive exn :=
| Exception (msg : string)          (* [raise Exception(...)] *)
| KeyError (key : string)           (* [df[c]] on a missing column *)
| TypeError                         (* arithmetic on a non-number *)
| ZeroDivisionError                 (* [/] of Python numbers by zero *)
| AttributeError                    (* [.str] on a series that holds no text *)
| OperationalError (msg : string)   (* sqlite3: no such table *)
| DanglingReference.                (* a location outside the heap; Python
                                       has no such state *)

Inductive result (A : Type) :=
| Ok (a : A)
| Raise (e : exn).
Arguments Ok {A} a.
Arguments Raise {A} e.

Definition rbind {A B} (r : result A) (k : A -> result B) : result B :=
  match r with
  | Ok a => k a
  | Raise e => Raise e
  end.

(** [f] over two lists in step, stopping at the first exception. *)
Fixpoint rmap2 {A B C} (f : A -> B -> result C) (l1 : list A) (l2 : list B)
  : result (list C) :=
  match l1, l2 with
  | x :: l1', y :: l2' =>
      rbind (f x y) (fun z => rbind (rmap2 f l1' l2') (fun zs => Ok (z :: zs)))
  | _, _ => Ok []
  end.

(** [needle in s] for text. *)
Fixpoint has_prefix (p s : string) : bool :=
  match p, s with
  | EmptyString, _ => true
  | String a p', String b s' => Ascii.eqb a b && has_prefix p' s'
  | String _ _, EmptyString => false
  end.

Fixpoint occurs (needle s : string) : bool :=
  has_prefix needle s ||
  match s with
  | EmptyString => false
  | String _ s' => occurs needle s'
  end.

(** [sep.join(l)] *)
Fixpoint join (sep : string) (l : list string) : string :=
  match l with
  | [] => ""
  | [x] => x
  | x :: rest => (x ++ sep ++ join sep rest)%string
  end.

(** [x in l] for a list of strings. *)
Definition contains (l : list string) (x : string) : bool :=
  existsb (String.eqb x) l.

(** [l.remove(x)]: drops the first occurrence.  (Python raises ValueError
    when there is none; every call in the script is guarded by [x in l].) *)
Fixpoint remove (x : string) (l : list string) : list string :=
  match l with
  | [] => []
  | y :: rest => if String.eqb x y then rest else y :: remove x rest
  end.

(** Whitespace as [str.strip()] sees it on ASCII text: tab, LF, VT, FF, CR,
    the separators FS, GS, RS, US, and the space. *)
Definition is_space (c : ascii) : bool :=
  let n := nat_of_ascii c in
  ((9 <=? n)%nat && (n <=? 13)%nat) || ((28 <=? n)%nat && (n <=? 32)%nat).

Fixpoint lstrip (s : string) : string :=
  match s with
  | String c rest => if is_space c then lstrip rest else s
  | EmptyString => EmptyString
  end.

(** [rstrip] keeps a character when it is not whitespace or when something
    remains after it. *)
Fixpoint rstrip (s : string) : string :=
  match s with
  | EmptyString => EmptyString
  | String c rest =>
      match rstrip rest with
      | EmptyString => if is_space c then EmptyString else String c EmptyString
      | kept => String c kept
      end
  end.

(** [s.strip()] *)
Definition strip (s : string) : string := rstrip (lstrip s).

Fixpoint all_space (s : string) : bool :=
  match s with
  | EmptyString => true
  | String c rest => is_space c && all_space rest
  end.

Definition first_char (s : string) : option ascii :=
  match s with
  | EmptyString => None
  | String c _ => Some c
  end.

Fixpoint last_char (s : string) : option ascii :=
  match s with
  | EmptyString => None
  | String c EmptyString => Some c
  | String _ rest => last_char rest
  end.

(** Decimal text of an integer, as [str(int)] prints it. *)
Definition digit (n : nat) : ascii := ascii_of_nat (48 + n).

Fixpoint pos_digits (fuel : nat) (p : Z) (acc : string) : string :=
  match fuel with
  | O => acc
  | S fuel' =>
      let acc' := String (digit (Z.to_nat (p mod 10))) acc in
      if (p / 10 =? 0)%Z then acc' else pos_digits fuel' (p / 10)%Z acc'
  end.

Definition str_int (z : Z) : string :=
  let body := pos_digits (S (Z.to_nat (Z.log2 (Z.abs z)))) (Z.abs z) "" in
  if (z <? 0)%Z then String "-"%char body else body.

End Py.
Import Py.

Notation "'try' x <- r ; k" := (rbind r (fun x => k))
  (at level 10, x name, r at level 100, k at level 200).


(* ===================================================================== *)
(** ** SQLite values and the base tables *)
(* ===================================================================== *)

Module Sql.

(** A number as SQLite stores it: INTEGER or REAL. *)
Inductive num :=
| NInt (z : Z)
| NReal (q : Q).

Definition num_Q (n : num) : Q :=
match n with
| NInt z => inject_Z z
| NReal q => q
end.

(** The value of a cell that is passed through unchanged (a name, a price
    read from the reference table, ...): SQLite types a value, not a column. *)
Inductive sqlval :=
| SNull
| SNum (n : num)
| SText (s : string).

(** Identifier columns hold an integer or NULL, measure columns a number or
    NULL. *)
Definition of_id (i : option Z) : sqlval :=
match i with
| Some z => SNum (NInt z)
| None => SNull
end.

Definition of_measure (m : option num) : sqlval :=
match m with
| Some n => SNum n
| None => SNull
end.

(** [a + b] inside SUM: INTEGER while both are, REAL otherwise. *)
Definition num_add (a b : num) : num :=
match a, b with
| NInt x, NInt y => NInt (x + y)
| _, _ => NReal (num_Q a + num_Q b)
end.

(** [SUM(X)]: NULL inputs are skipped, and the sum of no value is NULL. *)
Fixpoint sql_sum (l : list (option num)) : option num :=
match l with
| [] => None
| None :: rest => sql_sum rest
| Some x :: rest =>
    match sql_sum rest with
    | None => Some x
    | Some s => Some (num_add x s)
    end
end.

(** [a = b] in an ON clause: NULL equals nothing, not even NULL. *)
Definition id_eq (a b : option Z) : bool :=
match a, b with
| Some x, Some y => (x =? y)%Z
| _, _ => false
end.

(** [a IS b], the equality GROUP BY uses: NULLs fall into one group and
    numbers compare by value. *)
Definition id_is (a b : option Z) : bool :=
match a, b with
| Some x, Some y => (x =? y)%Z
| None, None => true
| _, _ => false
end.

Definition sqlval_is (a b : sqlval) : bool :=
match a, b with
| SNull, SNull => true
| SNum x, SNum y => Qeq_bool (num_Q x) (num_Q y)
| SText s, SText t => String.eqb s t
| _, _ => false
end.

(** The order ORDER BY sorts a measure by: NULL is below every number. *)
Definition measure_le (a b : option num) : bool :=
match a, b with
| None, _ => true
| Some _, None => false
| Some x, Some y => Qle_bool (num_Q x) (num_Q y)
end.

(** *** Rows of the base tables (the columns the query reads) *)

Record vendor_invoice_row := {
  vi_VendorNumber : option Z;
  vi_Freight : option num
}.

(** [p_other] holds the columns of a purchase beyond the seven the query
    names, among them the product identifier when the table has one. *)
Record purchases_row := {
  p_VendorNumber : option Z;
  p_VendorName : sqlval;
  p_Brand : option Z;
  p_Description : sqlval;
  p_PurchasePrice : sqlval;
  p_Quantity : option num;
  p_Dollars : option num;
  p_other : list (string * option Z)
}.

Record purchases_table := {
  pur_other_columns : list string;
  pur_rows : list purchases_row
}.

Record sales_row := {
  s_VendorNo : option Z;
  s_Brand : option Z;
  s_SalesQuantity : option num;
  s_SalesDollars : option num
}.

Record product_prices_row := {
  pp_ProductID : option Z;
  pp_Brand : option Z;
  pp_Price : sqlval;
  pp_Volume : sqlval
}.

(** [p.<column>] for a column outside the seven: NULL when the row has no
    value for it. *)
Fixpoint p_get (column : string) (cells : list (string * option Z)) : option Z :=
match cells with
| [] => None
| (c, v) :: rest => if String.eqb column c then v else p_get column rest
end.

(** *** GROUP BY and LEFT JOIN *)

(** Groups in the order their first row appears; a group is its first row
    and the rows after it that fall into the same group. *)
Fixpoint add_to_groups {A} (same : A -> A -> bool) (x : A)
  (groups : list (A * list A)) : list (A * list A) :=
match groups with
| [] => [(x, [])]
| (r, members) :: rest =>
    if same r x then (r, members ++ [x]) :: rest
    else (r, members) :: add_to_groups same x rest
end.

Definition group_by {A} (same : A -> A -> bool) (rows : list A)
  : list (A * list A) :=
fold_left (fun groups x => add_to_groups same x groups) rows [].

Definition group_rows {A} (g : A * list A) : list A := fst g :: snd g.

(** [l LEFT JOIN r ON on]: every row of [l] with each row of [r] that
    matches it, or alone when none does. *)
Definition left_join {A B} (on : A -> B -> bool) (l : list A) (r : list B)
  : list (A * option B) :=
flat_map (fun x =>
  match List.filter (on x) r with
  | [] => [(x, None)]
  | matches => map (fun y => (x, Some y)) matches
  end) l.

(** No two elements of [l] are the same for [same]. *)
Fixpoint apart {A} (same : A -> A -> bool) (l : list A) : Prop :=
match l with
| [] => True
| x :: rest => Forall (fun y => same x y = false) rest /\ apart same rest
end.

End Sql.
Import Sql.

(* ===================================================================== *)
(** ** pandas: scalars, series with a dtype, frames *)
(* ===================================================================== *)

Module Pd.

(** A float64: NaN (the null of a numeric column), an infinity, or a finite
    number. *)
Inductive fl :=
| FNaN
| FPosInf
| FNegInf
| FFin (q : Q).

(** A Python scalar in a column of dtype object. *)
Inductive pyobj :=
| PNone
| PInt (z : Z)
| PFloat (f : fl)
| PStr (s : string).

(** A column: the dtype decides what [fillna], [astype(str)] and the
    arithmetic do. *)
Inductive series :=
| Int64 (xs : list Z)
| Float64 (xs : list fl)
| Object (xs : list pyobj).

(** A DataFrame: its columns in order, by name. *)
Definition frame := list (string * series).

Definition of_int (z : Z) : fl := FFin (inject_Z z).

(** The cells of a column as Python scalars ([s[i]], [s.tolist()]). *)
Definition cells (s : series) : list pyobj :=
match s with
| Int64 xs => map PInt xs
| Float64 xs => map PFloat xs
| Object xs => xs
end.

(** [pd.isna(o)] *)
Definition isna (o : pyobj) : bool :=
match o with
| PNone | PFloat FNaN => true
| _ => false
end.

(** The value of a cell that holds a finite number. *)
Definition finite (o : pyobj) : option Q :=
match o with
| PInt z => Some (inject_Z z)
| PFloat (FFin q) => Some q
| _ => None
end.

(** *** float64 arithmetic (IEEE 754 on exact values, no signed zero) *)

Definition fl_sub (a b : fl) : fl :=
match a, b with
| FNaN, _ | _, FNaN => FNaN
| FFin x, FFin y => FFin (x - y)%Q
| FPosInf, FPosInf | FNegInf, FNegInf => FNaN
| FPosInf, _ => FPosInf
| FNegInf, _ => FNegInf
| FFin _, FPosInf => FNegInf
| FFin _, FNegInf => FPosInf
end.

Definition fl_neg (a : fl) : fl :=
match a with
| FPosInf => FNegInf
| FNegInf => FPosInf
| FFin q => FFin (- q)%Q
| FNaN => FNaN
end.

Definition fl_div (a b : fl) : fl :=
match a, b with
| FNaN, _ | _, FNaN => FNaN
| FFin x, FFin y =>
    if Qeq_bool y 0 then
      if Qeq_bool x 0 then FNaN else if Qle_bool 0 x then FPosInf else FNegInf
    else FFin (x / y)%Q
| FFin _, _ => FFin 0
| _, FFin y => if Qle_bool 0 y then a else fl_neg a
| _, _ => FNaN
end.

(** *** Python arithmetic on the scalars of an object column *)

Definition py_sub (a b : pyobj) : result pyobj :=
match a, b with
| PInt x, PInt y => Ok (PInt (x - y))
| PInt x, PFloat g => Ok (PFloat (fl_sub (of_int x) g))
| PFloat f, PInt y => Ok (PFloat (fl_sub f (of_int y)))
| PFloat f, PFloat g => Ok (PFloat (fl_sub f g))
| _, _ => Raise TypeError
end.

Definition is_zero (o : pyobj) : bool :=
match o with
| PInt z => (z =? 0)%Z
| PFloat (FFin q) => Qeq_bool q 0
| _ => false
end.

Definition as_fl (o : pyobj) : option fl :=
match o with
| PInt z => Some (of_int z)
| PFloat f => Some f
| _ => None
end.

(** [a / b] is true division; Python numbers raise on a zero divisor. *)
Definition py_truediv (a b : pyobj) : result pyobj :=
match as_fl a, as_fl b with
| Some x, Some y =>
    if is_zero b then Raise ZeroDivisionError else Ok (PFloat (fl_div x y))
| _, _ => Raise TypeError
end.

(** *** Text of a scalar: [str(o)] *)

Fixpoint frac_digits (fuel : nat) (r d : Z) : string :=
match fuel with
| O => ""
| S fuel' =>
    let r10 := (r * 10)%Z in
    String (digit (Z.to_nat (r10 / d)))
      (if (r10 mod d =? 0)%Z then "" else frac_digits fuel' (r10 mod d)%Z d)
end.

(** [repr] of a float in fixed notation (what Python prints for a float with
    a short decimal expansion and a magnitude below 1e16): [0.0], [12.5]. *)
Definition str_float (f : fl) : string :=
match f with
| FNaN => "nan"
| FPosInf => "inf"
| FNegInf => "-inf"
| FFin q =>
    let n := Z.abs (Qnum q) in
    let d := Zpos (Qden q) in
    ((if (Qnum q <? 0)%Z then "-" else "") ++
     str_int (n / d) ++ "." ++ frac_digits 17 (n mod d)%Z d)%string
end.

Definition py_str (o : pyobj) : string :=
match o with
| PNone => "None"
| PInt z => str_int z
| PFloat f => str_float f
| PStr s => s
end.

(** *** Operations on a series *)

(** [s.fillna(0)]: in a float64 column NaN becomes 0.0; in an object column
    None and NaN become the int 0; an int64 column has no null. *)
Definition zero_if_nan (x : fl) : fl :=
match x with
| FNaN => FFin 0
| _ => x
end.

Definition zero_if_na (o : pyobj) : pyobj :=
if isna o then PInt 0 else o.

Definition fillna0 (s : series) : series :=
match s with
| Int64 xs => Int64 xs
| Float64 xs => Float64 (map zero_if_nan xs)
| Object xs => Object (map zero_if_na xs)
end.

(** The cell [o] of the column [s] after [s.fillna(0)]. *)
Definition filled (s : series) (o : pyobj) : pyobj :=
match s, o with
| Float64 _, PFloat x => PFloat (zero_if_nan x)
| Object _, _ => zero_if_na o
| _, _ => o
end.

(** [s.astype(str)] *)
Definition astype_str (s : series) : series :=
Object (map (fun o => PStr (py_str o)) (cells s)).

(** [s.str.strip()]: a cell that is not text becomes NaN; a numeric column
    has no [.str]. *)
Definition str_strip (s : series) : result series :=
match s with
| Object xs =>
    Ok (Object (map (fun o => match o with
                              | PStr t => PStr (strip t)
                              | _ => PFloat FNaN
                              end) xs))
| _ => Raise AttributeError
end.

(** [s.replace(0, 1)] *)
Definition replace_0_1 (s : series) : series :=
match s with
| Int64 xs => Int64 (map (fun z => if (z =? 0)%Z then 1%Z else z) xs)
| Float64 xs =>
    Float64 (map (fun f => if is_zero (PFloat f) then FFin 1 else f) xs)
| Object xs => Object (map (fun o => if is_zero o then PInt 1 else o) xs)
end.

(** [a - b]: int64 while both are, float64 when one is, Python's [-] cell
    by cell when a column is of dtype object. *)
Definition series_sub (a b : series) : result series :=
match a, b with
| Int64 xs, Int64 ys => Ok (Int64 (zip_with Z.sub xs ys))
| Int64 xs, Float64 ys => Ok (Float64 (zip_with fl_sub (map of_int xs) ys))
| Float64 xs, Int64 ys => Ok (Float64 (zip_with fl_sub xs (map of_int ys)))
| Float64 xs, Float64 ys => Ok (Float64 (zip_with fl_sub xs ys))
| _, _ => rbind (rmap2 py_sub (cells a) (cells b)) (fun zs => Ok (Object zs))
end.

(** [a / b]: float64 for numeric columns (a zero divisor gives an infinity
    or NaN), Python's [/] cell by cell when a column is of dtype object. *)
Definition series_div (a b : series) : result series :=
match a, b with
| Int64 xs, Int64 ys =>
    Ok (Float64 (zip_with fl_div (map of_int xs) (map of_int ys)))
| Int64 xs, Float64 ys => Ok (Float64 (zip_with fl_div (map of_int xs) ys))
| Float64 xs, Int64 ys => Ok (Float64 (zip_with fl_div xs (map of_int ys)))
| Float64 xs, Float64 ys => Ok (Float64 (zip_with fl_div xs ys))
| _, _ => rbind (rmap2 py_truediv (cells a) (cells b)) (fun zs => Ok (Object zs))
end.

(** *** [pd.to_numeric(s, errors='coerce')]

    How pandas reads a number out of text is the library's business: it is a
    parameter, [None] for text that is no number. *)
Section ToNumeric.

Variable to_number : string -> option (Z + fl).

Definition coerce_cell (o : pyobj) : Z + fl :=
match o with
| PInt z => inl z
| PFloat f => inr f
| PStr s =>
    match to_number s with
    | Some n => n
    | None => inr FNaN
    end
| PNone => inr FNaN
end.

Definition only_int (n : Z + fl) : option Z :=
match n with
| inl z => Some z
| inr _ => None
end.

Definition to_fl (n : Z + fl) : fl :=
match n with
| inl z => of_int z
| inr f => f
end.

(** A numeric column is returned as it is; an object column becomes int64
    when every cell is an integer and float64 otherwise. *)
Definition to_numeric (s : series) : series :=
match s with
| Object xs =>
    let ns := map coerce_cell xs in
    match mapM only_int ns with
    | Some zs => Int64 zs
    | None => Float64 (map to_fl ns)
    end
| _ => s
end.

End ToNumeric.

(** *** Frames *)

(** [f[c]] *)
Fixpoint column (f : frame) (c : string) : option series :=
match f with
| [] => None
| (c', s) :: rest => if String.eqb c c' then Some s else column rest c
end.

(** [f[c] = s]: an existing column is replaced where it stands, a new one
    is added last. *)
Fixpoint set_column (c : string) (s : series) (f : frame) : frame :=
match f with
| [] => [(c, s)]
| (c', s') :: rest =>
    if String.eqb c c' then (c, s) :: rest else (c', s') :: set_column c s rest
end.

(** The cell of column [c] in row [i]. *)
Definition cell (f : frame) (c : string) (i : nat) : option pyobj :=
match column f c with
| Some s => cells s !! i
| None => None
end.

(** The finite number in column [c] of row [i]. *)
Definition value (f : frame) (c : string) (i : nat) : option Q :=
cell f c i ≫= finite.

(** [len(f)] *)
Definition n_rows (f : frame) : nat :=
match f with
| [] => 0
| (_, s) :: _ => length (cells s)
end.

(** Every cell of the column holds a finite number. *)
Definition all_finite (s : series) : Prop :=
Forall (fun o => is_Some (finite o)) (cells s).

End Pd.
Import Pd.

(* ===================================================================== *)
(** ** The store and its connection *)
(* ===================================================================== *)

(** The tables of [inventory.db] the script knows by name; a table that does
    not exist is [None]. *)
Record store := {
  vendor_invoice : option (list vendor_invoice_row);
  purchases : option purchases_table;
  sales : option (list sales_row);
  product_prices : option (list product_prices_row);
  vendor_sales_summary : option frame
}.

(** A connection: what its statements see, and what a reader of the file
    would find (the last commit). *)
Record conn := {
  live : store;
  durable : store
}.

Definition connect (inventory : store) : conn :=
{| live := inventory; durable := inventory |}.

(** [conn.commit()] *)
Definition commit (c : conn) : conn :=
{| live := live c; durable := live c |}.

(** [conn.close()]: what was not committed is gone. *)
Definition close (c : conn) : store := durable c.

Definition exists_as {A} (name : string) (table : option A) : list string :=
match table with
| Some _ => [name]
| None => []
end.

(** [SELECT name FROM sqlite_master WHERE type='table'] *)
Definition table_names (s : store) : list string :=
exists_as "vendor_invoice" (vendor_invoice s) ++
exists_as "purchases" (purchases s) ++
exists_as "sales" (sales s) ++
exists_as "product_prices" (product_prices s) ++
exists_as "vendor_sales_summary" (vendor_sales_summary s).

(** [CREATE TABLE IF NOT EXISTS product_prices (...)]: an empty table, unless
    there is one. *)
Definition create_product_prices (s : store) : store :=
{| vendor_invoice := vendor_invoice s;
   purchases := purchases s;
   sales := sales s;
   product_prices :=
     match product_prices s with
     | Some rows => Some rows
     | None => Some []
     end;
   vendor_sales_summary := vendor_sales_summary s |}.

(** [DROP TABLE] and [CREATE TABLE] of the summary with the rows of [f]. *)
Definition replace_summary (f : frame) (s : store) : store :=
{| vendor_invoice := vendor_invoice s;
   purchases := purchases s;
   sales := sales s;
   product_prices := product_prices s;
   vendor_sales_summary := Some f |}.

Definition execute (statement : store -> store) (c : conn) : conn :=
{| live := statement (live c); durable := durable c |}.

(* ===================================================================== *)
(** ** Helper functions *)
(* ===================================================================== *)

Definition purchases_columns : list string :=
["VendorNumber"; "VendorName"; "Brand"; "Description"; "PurchasePrice";
 "Quantity"; "Dollars"].

(** [PRAGMA table_info(table_name)]: no row for a table that does not exist. *)
Definition table_columns (c : conn) (table_name : string) : list string :=
if String.eqb table_name "purchases" then
  match purchases (live c) with
  | Some t => purchases_columns ++ pur_other_columns t
  | None => []
  end
else if String.eqb table_name "vendor_invoice" then
  match vendor_invoice (live c) with
  | Some _ => ["VendorNumber"; "Freight"]
  | None => []
  end
else if String.eqb table_name "sales" then
  match sales (live c) with
  | Some _ => ["VendorNo"; "Brand"; "SalesQuantity"; "SalesDollars"]
  | None => []
  end
else if String.eqb table_name "product_prices" then
  match product_prices (live c) with
  | Some _ => ["ProductID"; "Brand"; "Price"; "Volume"]
  | None => []
  end
else if String.eqb table_name "vendor_sales_summary" then
  match vendor_sales_summary (live c) with
  | Some f => map fst f
  | None => []
  end
else [].

(** The [for candidate in [...]] loop: the first candidate found in
    [columns]. *)
Fixpoint first_candidate (candidates columns : list string) : option string :=
match candidates with
| [] => None
| candidate :: rest =>
    if contains columns candidate then Some candidate
    else first_candidate rest columns
end.

Definition product_candidates : list string :=
["ProductID"; "ItemID"; "SKU"; "ProductCode"].

Definition detect_product_column (columns : list string) : option string :=
first_candidate product_candidates columns.

Definition required_tables : list string :=
["vendor_invoice"; "purchases"; "sales"; "product_prices"].

Definition verify_and_create_tables (c : conn) : result unit * conn :=
let existing_tables := table_names (live c) in
let missing :=
  List.filter (fun t => negb (contains existing_tables t)) required_tables in
let '(c, missing) :=
  if contains missing "product_prices" then
    (commit (execute create_product_prices c),
     remove "product_prices" missing)
  else (c, missing) in
match missing with
| [] => (Ok tt, c)
| _ :: _ =>
    (Raise (Exception ("Missing required tables: " ++ join ", " missing)%string),
     c)
end.

(* ===================================================================== *)
(** ** create_vendor_summary: the query *)
(* ===================================================================== *)

(** [if product_col:] holds for a name that is not empty. *)
Definition truthy (product_col : option string) : option string :=
match product_col with
| Some (String a rest) => Some (String a rest)
| _ => None
end.

Definition join_clause (product_col : option string) : string :=
match truthy product_col with
| Some col => ("LEFT JOIN product_prices pp ON p." ++ col ++ " = pp.ProductID")%string
| None => ""
end.

Definition select_actual_price (product_col : option string) : string :=
match truthy product_col with
| Some _ => "pp.Price AS ActualPrice"
| None => "NULL AS ActualPrice"
end.

Definition select_volume (product_col : option string) : string :=
match truthy product_col with
| Some _ => "pp.Volume"
| None => "NULL AS Volume"
end.

(** The query text up to the ActualPrice item of PurchaseSummary. *)
Definition query_part_1 : string :=
"
    WITH FreightSummary AS (
        SELECT
            VendorNumber,
            SUM(Freight) AS FreightCost
        FROM vendor_invoice
        GROUP BY VendorNumber
    ),
    PurchaseSummary AS (
        SELECT
            p.VendorNumber,
            p.VendorName,
            p.Brand,
            p.Description,
            p.PurchasePrice,
            ".

(** The query text between the ActualPrice and Volume items. *)
Definition query_part_2 : string :=
",
            ".

(** The query text from the totals of PurchaseSummary to its FROM clause. *)
Definition query_part_3 : string :=
",
            SUM(p.Quantity) AS TotalPurchaseQuantity,
            SUM(p.Dollars) AS TotalPurchaseDollars
        FROM purchases p
        ".

(** The query text from GROUP BY of PurchaseSummary to the end. *)
Definition query_part_4 : string :=
"
        GROUP BY p.VendorNumber, p.VendorName, p.Brand, p.Description, p.PurchasePrice, ActualPrice, Volume
    ),
    SalesSummary AS (
        SELECT
            VendorNo,
            Brand,
            SUM(SalesQuantity) AS TotalSalesQuantity,
            SUM(SalesDollars) AS TotalSalesDollars
        FROM sales
        GROUP BY VendorNo, Brand
    )
    SELECT
        ps.*,
        ss.TotalSalesQuantity,
        ss.TotalSalesDollars,
        fs.FreightCost
    FROM PurchaseSummary ps
    LEFT JOIN SalesSummary ss
        ON ps.VendorNumber = ss.VendorNo AND ps.Brand = ss.Brand
    LEFT JOIN FreightSummary fs
        ON ps.VendorNumber = fs.VendorNumber
    ORDER BY ps.TotalPurchaseDollars DESC;
    ".

(** The f-string [query]. *)
Definition build_query (product_col : option string) : string :=
(query_part_1 ++ select_actual_price product_col ++
 query_part_2 ++ select_volume product_col ++
 query_part_3 ++ join_clause product_col ++
 query_part_4)%string.

(** *** What the query computes *)

Record freight_summary_row := {
  fs_VendorNumber : option Z;
  fs_FreightCost : option num
}.

Record purchase_summary_row := {
  ps_VendorNumber : option Z;
  ps_VendorName : sqlval;
  ps_Brand : option Z;
  ps_Description : sqlval;
  ps_PurchasePrice : sqlval;
  ps_ActualPrice : sqlval;
  ps_Volume : sqlval;
  ps_TotalPurchaseQuantity : option num;
  ps_TotalPurchaseDollars : option num
}.

Record sales_summary_row := {
  ss_VendorNo : option Z;
  ss_Brand : option Z;
  ss_TotalSalesQuantity : option num;
  ss_TotalSalesDollars : option num
}.

(** A row of the final SELECT. *)
Record summary_row := {
  VendorNumber : option Z;
  VendorName : sqlval;
  Brand : option Z;
  Description : sqlval;
  PurchasePrice : sqlval;
  ActualPrice : sqlval;
  Volume : sqlval;
  TotalPurchaseQuantity : option num;
  TotalPurchaseDollars : option num;
  TotalSalesQuantity : option num;
  TotalSalesDollars : option num;
  FreightCost : option num
}.


(** WITH FreightSummary AS (... GROUP BY VendorNumber) *)
Definition FreightSummary (invoices : list vendor_invoice_row)
  : list freight_summary_row :=
map (fun g =>
       {| fs_VendorNumber := vi_VendorNumber (fst g);
          fs_FreightCost := sql_sum (map vi_Freight (group_rows g)) |})
    (group_by (fun a b => id_is (vi_VendorNumber a) (vi_VendorNumber b))
              invoices).

(** [FROM purchases p {join_clause}]: each purchase with the price rows its
    product column matches, or alone without a product column. *)
Definition purchases_joined (product_col : option string)
  (rows : list purchases_row) (prices : list product_prices_row)
  : list (purchases_row * option product_prices_row) :=
match truthy product_col with
| Some col =>
    left_join (fun p pp => id_eq (p_get col (p_other p)) (pp_ProductID pp))
              rows prices
| None => map (fun p => (p, None)) rows
end.

(** The items [ActualPrice] and [Volume] of a joined row: columns of [pp]
    (NULL where the LEFT JOIN found no price row) or the literal NULL. *)
Definition actual_price_of (product_col : option string)
  (j : purchases_row * option product_prices_row) : sqlval :=
match truthy product_col, snd j with
| Some _, Some pp => pp_Price pp
| _, _ => SNull
end.

Definition volume_of (product_col : option string)
  (j : purchases_row * option product_prices_row) : sqlval :=
match truthy product_col, snd j with
| Some _, Some pp => pp_Volume pp
| _, _ => SNull
end.

(** GROUP BY p.VendorNumber, p.VendorName, p.Brand, p.Description,
    p.PurchasePrice, ActualPrice, Volume *)
Definition same_purchase_group (product_col : option string)
  (a b : purchases_row * option product_prices_row) : bool :=
id_is (p_VendorNumber (fst a)) (p_VendorNumber (fst b)) &&
sqlval_is (p_VendorName (fst a)) (p_VendorName (fst b)) &&
id_is (p_Brand (fst a)) (p_Brand (fst b)) &&
sqlval_is (p_Description (fst a)) (p_Description (fst b)) &&
sqlval_is (p_PurchasePrice (fst a)) (p_PurchasePrice (fst b)) &&
sqlval_is (actual_price_of product_col a) (actual_price_of product_col b) &&
sqlval_is (volume_of product_col a) (volume_of product_col b).

Definition PurchaseSummary (product_col : option string)
  (rows : list purchases_row) (prices : list product_prices_row)
  : list purchase_summary_row :=
map (fun g =>
       let first := fst g in
       {| ps_VendorNumber := p_VendorNumber (fst first);
          ps_VendorName := p_VendorName (fst first);
          ps_Brand := p_Brand (fst first);
          ps_Description := p_Description (fst first);
          ps_PurchasePrice := p_PurchasePrice (fst first);
          ps_ActualPrice := actual_price_of product_col first;
          ps_Volume := volume_of product_col first;
          ps_TotalPurchaseQuantity :=
            sql_sum (map (fun j => p_Quantity (fst j)) (group_rows g));
          ps_TotalPurchaseDollars :=
            sql_sum (map (fun j => p_Dollars (fst j)) (group_rows g)) |})
    (group_by (same_purchase_group product_col)
              (purchases_joined product_col rows prices)).

(** WITH SalesSummary AS (... GROUP BY VendorNo, Brand) *)
Definition SalesSummary (rows : list sales_row) : list sales_summary_row :=
map (fun g =>
       {| ss_VendorNo := s_VendorNo (fst g);
          ss_Brand := s_Brand (fst g);
          ss_TotalSalesQuantity := sql_sum (map s_SalesQuantity (group_rows g));
          ss_TotalSalesDollars := sql_sum (map s_SalesDollars (group_rows g)) |})
    (group_by (fun a b => id_is (s_VendorNo a) (s_VendorNo b) &&
                          id_is (s_Brand a) (s_Brand b)) rows).

(** ON ps.VendorNumber = ss.VendorNo AND ps.Brand = ss.Brand *)
Definition on_sales (ps : purchase_summary_row) (ss : sales_summary_row) : bool :=
id_eq (ps_VendorNumber ps) (ss_VendorNo ss) && id_eq (ps_Brand ps) (ss_Brand ss).

(** ON ps.VendorNumber = fs.VendorNumber *)
Definition on_freight (j : purchase_summary_row * option sales_summary_row)
  (fs : freight_summary_row) : bool :=
id_eq (ps_VendorNumber (fst j)) (fs_VendorNumber fs).

(** SELECT ps.*, ss.TotalSalesQuantity, ss.TotalSalesDollars, fs.FreightCost *)
Definition project
  (j : purchase_summary_row * option sales_summary_row *
       option freight_summary_row) : summary_row :=
let '(ps, ss, fs) := j in
{| VendorNumber := ps_VendorNumber ps;
   VendorName := ps_VendorName ps;
   Brand := ps_Brand ps;
   Description := ps_Description ps;
   PurchasePrice := ps_PurchasePrice ps;
   ActualPrice := ps_ActualPrice ps;
   Volume := ps_Volume ps;
   TotalPurchaseQuantity := ps_TotalPurchaseQuantity ps;
   TotalPurchaseDollars := ps_TotalPurchaseDollars ps;
   TotalSalesQuantity := ss ≫= ss_TotalSalesQuantity;
   TotalSalesDollars := ss ≫= ss_TotalSalesDollars;
   FreightCost := fs ≫= fs_FreightCost |}.

(** ORDER BY ps.TotalPurchaseDollars DESC: [a] may stand before [b]. *)
Definition purchase_dollars_desc (a b : summary_row) : Prop :=
Is_true (measure_le (TotalPurchaseDollars b) (TotalPurchaseDollars a)).

#[global] Instance purchase_dollars_desc_dec a b :
  Decision (purchase_dollars_desc a b).
Proof. unfold purchase_dollars_desc. apply _. Defined.

(** The rows the query returns. *)
Definition summary_query (product_col : option string)
  (invoices : list vendor_invoice_row) (rows : list purchases_row)
  (sold : list sales_row) (prices : list product_prices_row)
  : list summary_row :=
merge_sort purchase_dollars_desc
  (map project
     (left_join on_freight
        (left_join on_sales (PurchaseSummary product_col rows prices)
                   (SalesSummary sold))
        (FreightSummary invoices))).

(** *** pd.read_sql_query: from rows to a frame *)

Definition py_of_sql (v : sqlval) : pyobj :=
match v with
| SNull => PNone
| SNum (NInt z) => PInt z
| SNum (NReal q) => PFloat (FFin q)
| SText s => PStr s
end.

Definition is_null (v : sqlval) : bool :=
match v with
| SNull => true
| _ => false
end.

Definition sql_int (v : sqlval) : option Z :=
match v with
| SNum (NInt z) => Some z
| _ => None
end.

Definition sql_float (v : sqlval) : option fl :=
match v with
| SNull => Some FNaN
| SNum n => Some (FFin (num_Q n))
| SText _ => None
end.

(** The number a value stands for once its null is filled with 0. *)
Definition null_as_zero (v : sqlval) : option Q :=
match v with
| SNull => Some 0%Q
| SNum n => Some (num_Q n)
| SText _ => None
end.

(** The dtype pandas infers for the values of one column: object when
    there is nothing but None (or no row) or when some value is text, int64
    when all are integers, float64 (None read as NaN) otherwise. *)
Definition series_of_column (values : list sqlval) : series :=
if forallb is_null values then Object (map py_of_sql values)
else
  match mapM sql_int values with
  | Some zs => Int64 zs
  | None =>
      match mapM sql_float values with
      | Some fs => Float64 fs
      | None => Object (map py_of_sql values)
      end
  end.

(** The columns [clean_data] assigns; the others it only fills. *)
Definition assigned_columns : list string :=
["SalesToPurchaseRatio"; "StockTurnover"; "ProfitMargin"; "GrossProfit";
 "Description"; "VendorName"; "Volume"].





(** The frame of the query's rows, its columns in the order of the SELECT. *)
Definition query_frame (rows : list summary_row) : frame :=
[ ("VendorNumber", series_of_column (map (fun r => of_id (VendorNumber r)) rows));
  ("VendorName", series_of_column (map VendorName rows));
  ("Brand", series_of_column (map (fun r => of_id (Brand r)) rows));
  ("Description", series_of_column (map Description rows));
  ("PurchasePrice", series_of_column (map PurchasePrice rows));
  ("ActualPrice", series_of_column (map ActualPrice rows));
  ("Volume", series_of_column (map Volume rows));
  ("TotalPurchaseQuantity",
   series_of_column (map (fun r => of_measure (TotalPurchaseQuantity r)) rows));
  ("TotalPurchaseDollars",
   series_of_column (map (fun r => of_measure (TotalPurchaseDollars r)) rows));
  ("TotalSalesQuantity",
   series_of_column (map (fun r => of_measure (TotalSalesQuantity r)) rows));
  ("TotalSalesDollars",
   series_of_column (map (fun r => of_measure (TotalSalesDollars r)) rows));
  ("FreightCost",
   series_of_column (map (fun r => of_measure (FreightCost r)) rows)) ].

(* ===================================================================== *)
(** ** The heap of frames *)
(* ===================================================================== *)

(** A DataFrame is an object: a variable holds its location, and
    [fillna(inplace=True)] and [df[c] = s] change the object in place. *)
Abbreviation loc := nat.
Abbreviation heap := (list frame).

Definition M (A : Type) : Type := heap -> result A * heap.

Definition ret {A} (a : A) : M A := fun h => (Ok a, h).

Definition bind {A B} (m : M A) (k : A -> M B) : M B :=
fun h =>
  match m h with
  | (Ok a, h') => k a h'
  | (Raise e, h') => (Raise e, h')
  end.

Definition lift {A} (r : result A) : M A := fun h => (r, h).

Notation "'do' x <- m ; k" := (bind m (fun x => k))
  (at level 10, x name, m at level 100, k at level 200).

Definition new_frame (f : frame) : M loc :=
fun h => (Ok (length h), h ++ [f]).

Definition read_frame (df : loc) : M frame :=
fun h =>
  match h !! df with
  | Some f => (Ok f, h)
  | None => (Raise DanglingReference, h)
  end.

Definition write_frame (df : loc) (f : frame) : M unit :=
fun h => (Ok tt, <[df := f]> h).

(** [df.copy()] *)
Definition df_copy (df : loc) : M loc :=
do f <- read_frame df ; new_frame f.

(** [df.fillna(0, inplace=True)] *)
Definition df_fillna0_inplace (df : loc) : M unit :=
do f <- read_frame df ;
write_frame df (map (fun cs => (fst cs, fillna0 (snd cs))) f).

(** [df[c]] *)
Definition df_getitem (df : loc) (c : string) : M series :=
do f <- read_frame df ;
match column f c with
| Some s => ret s
| None => lift (Raise (KeyError c))
end.

(** [df[c] = s], for a series [s] computed from columns of [df] (it has the
    rows of [df]). *)
Definition df_setitem (df : loc) (c : string) (s : series) : M unit :=
do f <- read_frame df ; write_frame df (set_column c s f).

(* ===================================================================== *)
(** ** The script *)
(* ===================================================================== *)

Definition no_such_table : exn := OperationalError "no such table".

(** The query fails when a table it names does not exist; [product_prices]
    is named only by the join clause. *)
Definition run_summary_query (product_col : option string) (s : store)
  : result (list summary_row) :=
match vendor_invoice s, purchases s, sales s with
| Some invoices, Some bought, Some sold =>
    match truthy product_col, product_prices s with
    | Some _, None => Raise no_such_table
    | _, prices =>
        Ok (summary_query product_col invoices (pur_rows bought) sold
              (default [] prices))
    end
| _, _, _ => Raise no_such_table
end.

Definition create_vendor_summary (c : conn) : M loc :=
let purchase_cols := table_columns c "purchases" in
let product_col := detect_product_column purchase_cols in
do rows <- lift (run_summary_query product_col (live c)) ;
new_frame (query_frame rows).

Section Script.

Variable to_number : string -> option (Z + fl).

Definition clean_data (df : loc) : M loc :=
do df <- df_copy df ;
do _ <- df_fillna0_inplace df ;
do volume <- df_getitem df "Volume" ;
do _ <- df_setitem df "Volume" (fillna0 (to_numeric to_number volume)) ;
do name <- df_getitem df "VendorName" ;
do name <- lift (str_strip (astype_str name)) ;
do _ <- df_setitem df "VendorName" name ;
do description <- df_getitem df "Description" ;
do description <- lift (str_strip (astype_str description)) ;
do _ <- df_setitem df "Description" description ;
(* Compute business metrics *)
do sales_dollars <- df_getitem df "TotalSalesDollars" ;
do purchase_dollars <- df_getitem df "TotalPurchaseDollars" ;
do gross_profit <- lift (series_sub sales_dollars purchase_dollars) ;
do _ <- df_setitem df "GrossProfit" gross_profit ;
do gross_profit <- df_getitem df "GrossProfit" ;
do sales_dollars <- df_getitem df "TotalSalesDollars" ;
do margin <- lift (series_div gross_profit (replace_0_1 sales_dollars)) ;
do _ <- df_setitem df "ProfitMargin" margin ;
do sales_quantity <- df_getitem df "TotalSalesQuantity" ;
do purchase_quantity <- df_getitem df "TotalPurchaseQuantity" ;
do turnover <- lift (series_div sales_quantity (replace_0_1 purchase_quantity)) ;
do _ <- df_setitem df "StockTurnover" turnover ;
do sales_dollars <- df_getitem df "TotalSalesDollars" ;
do purchase_dollars <- df_getitem df "TotalPurchaseDollars" ;
do ratio <- lift (series_div sales_dollars (replace_0_1 purchase_dollars)) ;
do _ <- df_setitem df "SalesToPurchaseRatio" ratio ;
ret df.

(** The frame [clean_data] returns, as a function of the frame it is given:
    the same statements on one frame, without the heap (the two are
    related by [clean_data_run]). *)
Definition get (f : frame) (c : string) : result series :=
match column f c with
| Some s => Ok s
| None => Raise (KeyError c)
end.

Definition cleaned (f : frame) : result frame :=
let f := map (fun cs => (fst cs, fillna0 (snd cs))) f in
try volume <- get f "Volume" ;
let f := set_column "Volume" (fillna0 (to_numeric to_number volume)) f in
try name <- get f "VendorName" ;
try name <- str_strip (astype_str name) ;
let f := set_column "VendorName" name f in
try description <- get f "Description" ;
try description <- str_strip (astype_str description) ;
let f := set_column "Description" description f in
try sales_dollars <- get f "TotalSalesDollars" ;
try purchase_dollars <- get f "TotalPurchaseDollars" ;
try gross_profit <- series_sub sales_dollars purchase_dollars ;
let f := set_column "GrossProfit" gross_profit f in
try gross_profit <- get f "GrossProfit" ;
try sales_dollars <- get f "TotalSalesDollars" ;
try margin <- series_div gross_profit (replace_0_1 sales_dollars) ;
let f := set_column "ProfitMargin" margin f in
try sales_quantity <- get f "TotalSalesQuantity" ;
try purchase_quantity <- get f "TotalPurchaseQuantity" ;
try turnover <- series_div sales_quantity (replace_0_1 purchase_quantity) ;
let f := set_column "StockTurnover" turnover f in
try sales_dollars <- get f "TotalSalesDollars" ;
try purchase_dollars <- get f "TotalPurchaseDollars" ;
try ratio <- series_div sales_dollars (replace_0_1 purchase_dollars) ;
Ok (set_column "SalesToPurchaseRatio" ratio f).

(** [df.to_sql('vendor_sales_summary', conn, if_exists='replace',
    index=False)]: the table is dropped and written anew, and pandas
    commits. *)
Definition ingest_db (df : loc) (c : conn) : M conn :=
do f <- read_frame df ;
ret (commit (execute (replace_summary f) c)).

(** Steps 2 to 4 of the main script. *)
Definition summarise (c : conn) : M conn :=
do summary_df <- create_vendor_summary c ;
do clean_df <- clean_data summary_df ;
ingest_db clean_df c.

(** The main script on the file [inventory.db]: what the file holds when the
    process ends.  An exception is logged, and the connection is closed on
    every path. *)
Definition main (inventory : store) : store :=
let c := connect inventory in
match verify_and_create_tables c with
| (Raise _, c) => close c
| (Ok _, c) =>
    match summarise c [] with
    | (Ok c', _) => close c'
    | (Raise _, _) => close c
    end
end.

End Script.

(** A reader of unsigned decimal integers, for the examples: pandas reads
    these (and more) as numbers. *)
Fixpoint read_digits (s : string) (acc : Z) : option Z :=
match s with
| EmptyString => Some acc
| String c rest =>
    let n := nat_of_ascii c in
    if ((48 <=? n)%nat && (n <=? 57)%nat)%bool
    then read_digits rest (acc * 10 + Z.of_nat (n - 48))
    else None
end.

Definition decimal_number (s : string) : option (Z + fl) :=
match s with
| EmptyString => None
| _ => option_map inl (read_digits s 0)
end.

(** *** Sample data for the examples *)

(** A query result of two rows: a vendor with sales and freight, and one
    without a name, with no sale and no invoice. *)
Definition sample_frame : frame :=
[ ("VendorNumber", Int64 [1; 2]%Z);
  ("VendorName", Object [PStr "  Acme  "; PNone]);
  ("Brand", Int64 [10; 20]%Z);
  ("Description", Object [PStr "Gin "; PStr "Rum"]);
  ("PurchasePrice", Float64 [FFin 3; FFin 4]);
  ("ActualPrice", Object [PNone; PNone]);
  ("Volume", Object [PStr "750"; PStr "1 litre"]);
  ("TotalPurchaseQuantity", Int64 [4; 6]%Z);
  ("TotalPurchaseDollars", Float64 [FFin 0; FFin 30]);
  ("TotalSalesQuantity", Float64 [FFin 3; FNaN]);
  ("TotalSalesDollars", Float64 [FFin 500; FNaN]);
  ("FreightCost", Float64 [FFin (5 # 2); FNaN]) ].

(** Two purchases: vendor 1 bought for nothing what it sold for 500; vendor
    2 has no name, no sale and no invoice. *)
Definition sold_purchase : purchases_row :=
{| p_VendorNumber := Some 1%Z; p_VendorName := SText "  Acme  ";
   p_Brand := Some 10%Z; p_Description := SText "Gin ";
   p_PurchasePrice := SNum (NReal 3);
   p_Quantity := Some (NInt 4); p_Dollars := Some (NInt 0);
   p_other := [("Store", Some 7%Z)] |}.

Definition unsold_purchase : purchases_row :=
{| p_VendorNumber := Some 2%Z; p_VendorName := SNull;
   p_Brand := Some 20%Z; p_Description := SText "Rum";
   p_PurchasePrice := SNum (NReal 4);
   p_Quantity := Some (NInt 6); p_Dollars := Some (NReal 30);
   p_other := [("Store", Some 7%Z)] |}.

Definition sample_purchases : purchases_table :=
{| pur_other_columns := ["Store"];
   pur_rows := [sold_purchase; unsold_purchase] |}.

(** A store with the three base tables and no price table; purchases have
    no product column. *)
Definition sample_store : store :=
{| vendor_invoice :=
     Some [ {| vi_VendorNumber := Some 1%Z; vi_Freight := Some (NReal (5 # 2)) |} ];
   purchases := Some sample_purchases;
   sales :=
     Some [ {| s_VendorNo := Some 1%Z; s_Brand := Some 10%Z;
               s_SalesQuantity := Some (NInt 3);
               s_SalesDollars := Some (NReal 500) |} ];
   product_prices := None;
   vendor_sales_summary := None |}.


(* ===================================================================== *)
(** * Properties *)
(* ===================================================================== *)

(** ** Strings and lists *)

Lemma contains_elem_of (l : list string) (x : string) :
  contains l x = true <-> x ∈ l.
Proof.
  unfold contains. rewrite existsb_exists. split.
  - intros (y & Hy & Heq). apply String.eqb_eq in Heq. subst.
    by apply list_elem_of_In.
  - intros Hx. exists x. split; [by apply list_elem_of_In|apply String.eqb_refl].
Qed.

Lemma contains_not_elem_of (l : list string) (x : string) :
  contains l x = false <-> x ∉ l.
Proof.
  rewrite <- contains_elem_of. destruct (contains l x); split; congruence.
Qed.

Lemma append_String (c : ascii) (a b : string) :
  (String c a ++ b)%string = String c (a ++ b)%string.
Proof. reflexivity. Qed.

Lemma lstrip_split (s : string) :
  exists l, s = (l ++ lstrip s)%string /\ all_space l = true.
Proof.
  induction s as [|c s IH]; simpl.
  - by exists "".
  - destruct (is_space c) eqn:Hc.
    + destruct IH as (l & Hl & Hsp). exists (String c l). simpl.
      rewrite Hc, append_String. split; [congruence|done].
    + by exists "".
Qed.

Lemma lstrip_first (s : string) (c : ascii) :
  first_char (lstrip s) = Some c -> is_space c = false.
Proof.
  induction s as [|a s IH]; simpl; [done|].
  destruct (is_space a) eqn:Ha; [done|]. simpl. congruence.
Qed.

Lemma rstrip_split (s : string) :
  exists r, s = (rstrip s ++ r)%string /\ all_space r = true.
Proof.
  induction s as [|c s IH]; simpl.
  - by exists "".
  - destruct IH as (r & Hr & Hsp). destruct (rstrip s) eqn:Hs.
    + change (s = r) in Hr. subst r. destruct (is_space c) eqn:Hc.
      * exists (String c s). simpl. by rewrite Hc.
      * by exists s.
    + exists r. rewrite append_String. split; [congruence|done].
Qed.

Lemma rstrip_last (s : string) (c : ascii) :
  last_char (rstrip s) = Some c -> is_space c = false.
Proof.
  induction s as [|a s IH]; simpl; [done|].
  destruct (rstrip s) as [|b kept] eqn:Hs.
  - destruct (is_space a) eqn:Ha; simpl; congruence.
  - simpl. simpl in IH. done.
Qed.

Lemma rstrip_first (s : string) (c : ascii) :
  first_char (rstrip s) = Some c -> first_char s = Some c.
Proof.
  destruct s as [|a s]; simpl; [done|].
  destruct (rstrip s); [destruct (is_space a)|]; simpl; congruence.
Qed.

(** [strip] removes a run of whitespace at each end, and nothing else; what
    is left neither starts nor ends with whitespace. *)
Lemma strip_spec (s : string) :
  (exists l r, s = (l ++ strip s ++ r)%string /\
               all_space l = true /\ all_space r = true) /\
  (forall c, first_char (strip s) = Some c -> is_space c = false) /\
  (forall c, last_char (strip s) = Some c -> is_space c = false).
Proof.
  unfold strip. split; [|split].
  - destruct (lstrip_split s) as (l & Hl & Hsl).
    destruct (rstrip_split (lstrip s)) as (r & Hr & Hsr).
    exists l, r. split; [|done]. by rewrite <- Hr.
  - intros c Hc. apply rstrip_first in Hc. by apply lstrip_first in Hc.
  - apply rstrip_last.
Qed.

(** ** detect_product_column *)

Lemma first_candidate_Some (candidates columns : list string) (c : string) :
  first_candidate candidates columns = Some c <->
  exists before after,
    candidates = before ++ c :: after /\ c ∈ columns /\
    forall b, b ∈ before -> b ∉ columns.
Proof.
  induction candidates as [|x rest IH]; simpl.
  - split; [done|]. intros (before & after & Heq & _).
    by destruct before.
  - destruct (contains columns x) eqn:Hx.
    + apply contains_elem_of in Hx. split.
      * intros [= <-]. exists [], rest. split; [done|]. split; [done|].
        intros b Hb. by apply elem_of_nil in Hb.
      * intros (before & after & Heq & Hc & Hbefore).
        destruct before as [|b before]; simpl in Heq.
        -- congruence.
        -- injection Heq as <- _. exfalso. apply (Hbefore x); [left|done].
    + apply contains_not_elem_of in Hx. rewrite IH. split.
      * intros (before & after & -> & Hc & Hbefore).
        exists (x :: before), after. split; [done|]. split; [done|].
        intros b [->|Hb]%elem_of_cons; auto.
      * intros (before & after & Heq & Hc & Hbefore).
        destruct before as [|b before]; simpl in Heq.
        -- injection Heq as -> _. done.
        -- injection Heq as <- ->. exists before, after.
           split; [done|]. split; [done|].
           intros b' Hb'. apply Hbefore. by right.
Qed.

Lemma first_candidate_None (candidates columns : list string) :
  first_candidate candidates columns = None <->
  forall c, c ∈ candidates -> c ∉ columns.
Proof.
  induction candidates as [|x rest IH]; simpl.
  - split; [|done]. intros _ c Hc. by apply elem_of_nil in Hc.
  - destruct (contains columns x) eqn:Hx.
    + apply contains_elem_of in Hx. split; [done|].
      intros Hall. exfalso. apply (Hall x); [left|done].
    + apply contains_not_elem_of in Hx. rewrite IH. split.
      * intros Hall c [->|Hc]%elem_of_cons; auto.
      * intros Hall c Hc. apply Hall. by right.
Qed.

(** C3. [detect_product_column] returns the first name of the priority list
    ProductID, ItemID, SKU, ProductCode that occurs among the columns: the
    result is [c] exactly when [c] is a candidate that occurs and no
    candidate before it does; it is [None] exactly when no candidate occurs;
    and columns that hold both SKU and ProductID give ProductID, in whatever
    order they stand. *)
Theorem detect_product_column_priority (columns : list string) :
  (forall c,
     detect_product_column columns = Some c <->
     exists before after,
       ["ProductID"; "ItemID"; "SKU"; "ProductCode"] = before ++ c :: after /\
       c ∈ columns /\ forall b, b ∈ before -> b ∉ columns) /\
  (detect_product_column columns = None <->
   forall c, c ∈ ["ProductID"; "ItemID"; "SKU"; "ProductCode"] -> c ∉ columns) /\
  ("SKU" ∈ columns -> "ProductID" ∈ columns ->
   detect_product_column columns = Some "ProductID").
Proof.
  split; [|split].
  - intros c. apply first_candidate_Some.
  - apply first_candidate_None.
  - intros _ Hid. apply first_candidate_Some.
    exists [], ["ItemID"; "SKU"; "ProductCode"]. split; [done|].
    split; [done|]. intros b Hb. by apply elem_of_nil in Hb.
Qed.

Example detect_product_column_samples :
  detect_product_column ["SKU"; "ProductID"] = Some "ProductID" /\
  detect_product_column ["ProductID"; "SKU"] = Some "ProductID" /\
  detect_product_column ["Brand"; "ProductCode"; "SKU"] = Some "SKU" /\
  detect_product_column ["Brand"; "productid"] = None.
Proof. repeat split; reflexivity. Qed.

(** ** verify_and_create_tables *)

(** C2. Whatever tables exist, the verifier first creates [product_prices]
    when it is absent and commits (the table is there, empty, in the
    committed store, also when the call then fails); then, when [missing]
    (the tables among vendor_invoice, purchases, sales that do not exist) is
    not empty, it raises an exception whose message lists [missing] joined by
    a comma and a space, and otherwise it returns.  With exactly
    vendor_invoice and purchases present it creates product_prices and fails
    naming sales alone.  (The script raises Python's [Exception]; the message
    is what tells the error.) *)
Theorem verify_and_create_tables_gate (c : conn) :
  let missing :=
    List.filter (fun t => negb (contains (table_names (live c)) t))
                ["vendor_invoice"; "purchases"; "sales"] in
  let c' :=
    match product_prices (live c) with
    | Some _ => c
    | None => commit (execute create_product_prices c)
    end in
  snd (verify_and_create_tables c) = c' /\
  (product_prices (live c) = None ->
   product_prices (live c') = Some [] /\ product_prices (durable c') = Some []) /\
  (missing = [] -> fst (verify_and_create_tables c) = Ok tt) /\
  (missing <> [] ->
   fst (verify_and_create_tables c) =
   Raise (Exception ("Missing required tables: " ++ join ", " missing)%string)) /\
  (table_names (live c) = ["vendor_invoice"; "purchases"] ->
   verify_and_create_tables c =
   (Raise (Exception "Missing required tables: sales"),
    commit (execute create_product_prices c))).
Proof.
  destruct c as [[invoices bought sold prices summary] committed].
  destruct invoices, bought, sold, prices, summary; cbn;
    repeat split; intros; try done.
Qed.

Example verify_and_create_tables_samples :
  let empty := {| vendor_invoice := None; purchases := None; sales := None;
                  product_prices := None; vendor_sales_summary := None |} in
  fst (verify_and_create_tables (connect empty)) =
    Raise (Exception "Missing required tables: vendor_invoice, purchases, sales") /\
  product_prices (close (snd (verify_and_create_tables (connect empty)))) = Some [].
Proof. split; reflexivity. Qed.

(** ** The query: ORDER BY *)

Lemma measure_le_total (a b : option num) :
  measure_le a b = true \/ measure_le b a = true.
Proof.
  destruct a as [x|], b as [y|]; simpl; auto.
  destruct (Qle_bool (num_Q x) (num_Q y)) eqn:Hxy; [by left|right].
  apply Qle_bool_iff. apply Qlt_le_weak. apply Qnot_le_lt.
  intros Hle. apply Qle_bool_iff in Hle. congruence.
Qed.

#[global] Instance purchase_dollars_desc_total : Total purchase_dollars_desc.
Proof.
  intros a b. unfold purchase_dollars_desc.
  destruct (measure_le_total (TotalPurchaseDollars b) (TotalPurchaseDollars a))
    as [H|H]; rewrite H; simpl; auto.
Qed.

Lemma Sorted_consecutive {A} (R : relation A) (l : list A) (i : nat) (a b : A) :
  Sorted R l -> l !! i = Some a -> l !! S i = Some b -> R a b.
Proof.
  intros Hs. revert i. induction Hs as [|x l Hs IH Hd]; intros i Ha Hb.
  - done.
  - destruct i as [|i]; simpl in *.
    + injection Ha as ->. destruct Hd as [|y l' Hxy]; simpl in Hb; [done|].
      by injection Hb as ->.
    + eapply IH; eauto.
Qed.

(** C8. The rows of the query are ordered by TotalPurchaseDollars
    descending: the result is sorted, so in every pair of consecutive rows
    the later total is not above the earlier one in the order ORDER BY uses
    (NULL below every number), and when both totals are numbers the earlier
    is greater than or equal to the later.  Nothing is said of ties. *)
Theorem summary_query_ordered (product_col : option string)
  (invoices : list vendor_invoice_row) (rows : list purchases_row)
  (sold : list sales_row) (prices : list product_prices_row) :
  let result := summary_query product_col invoices rows sold prices in
  Sorted purchase_dollars_desc result /\
  forall i earlier later,
    result !! i = Some earlier -> result !! S i = Some later ->
    measure_le (TotalPurchaseDollars later) (TotalPurchaseDollars earlier) = true /\
    forall x y,
      TotalPurchaseDollars earlier = Some x ->
      TotalPurchaseDollars later = Some y ->
      (num_Q y <= num_Q x)%Q.
Proof.
  intros result.
  assert (Hs : Sorted purchase_dollars_desc result)
    by apply (Sorted_merge_sort _).
  split; [done|]. intros i earlier later He Hl.
  pose proof (Sorted_consecutive _ _ _ _ _ Hs He Hl) as Hle.
  unfold purchase_dollars_desc in Hle. apply Is_true_true in Hle.
  split; [done|]. intros x y Hx Hy. rewrite Hx, Hy in Hle. simpl in Hle.
  by apply Qle_bool_iff.
Qed.

(** ** The heap: clean_data works on a copy *)

Section Cleaning.

Variable to_number : string -> option (Z + fl).

Lemma read_last (h : heap) (g : frame) :
  (h ++ [g]) !! length h = Some g.
Proof. by rewrite lookup_app_r, Nat.sub_diag by lia. Qed.

Lemma write_last (h : heap) (g g' : frame) :
  <[length h := g']> (h ++ [g]) = h ++ [g'].
Proof.
  rewrite insert_app_r_alt, Nat.sub_diag by lia. done.
Qed.

Lemma bind_getitem {A} (h : heap) (g : frame) (c : string) (k : series -> M A) :
  bind (df_getitem (length h) c) k (h ++ [g]) =
  match get g c with
  | Ok s => k s (h ++ [g])
  | Raise e => (Raise e, h ++ [g])
  end.
Proof.
  unfold bind, df_getitem, bind, read_frame, get. rewrite read_last.
  by destruct (column g c).
Qed.

Lemma bind_setitem {A} (h : heap) (g : frame) (c : string) (s : series)
  (k : unit -> M A) :
  bind (df_setitem (length h) c s) k (h ++ [g]) = k tt (h ++ [set_column c s g]).
Proof.
  unfold bind, df_setitem, bind, read_frame, write_frame.
  by rewrite read_last, write_last.
Qed.

Lemma bind_fillna {A} (h : heap) (g : frame) (k : unit -> M A) :
  bind (df_fillna0_inplace (length h)) k (h ++ [g]) =
  k tt (h ++ [map (fun cs => (fst cs, fillna0 (snd cs))) g]).
Proof.
  unfold bind, df_fillna0_inplace, bind, read_frame, write_frame.
  by rewrite read_last, write_last.
Qed.

Lemma bind_lift {A B} (r : result A) (k : A -> M B) (h : heap) :
  bind (lift r) k h =
  match r with
  | Ok a => k a h
  | Raise e => (Raise e, h)
  end.
Proof. unfold bind, lift. by destruct r. Qed.

Lemma bind_copy {A} (h : heap) (df : loc) (f : frame) (k : loc -> M A) :
  h !! df = Some f ->
  bind (df_copy df) k h = k (length h) (h ++ [f]).
Proof.
  intros Hf. unfold bind, df_copy, bind, read_frame, new_frame. by rewrite Hf.
Qed.

(** One statement of [clean_data] and of [cleaned] at a time: a failure ends
    both with the same exception. *)
(** One statement of [clean_data] and of [cleaned] at a time: a failure ends
    both with the same exception. *)
Ltac clean_failed :=
  eexists; split; [reflexivity|intros ?; discriminate].

Ltac clean_get :=
  rewrite bind_getitem;
  match goal with
  | |- context [get ?g ?c] => destruct (get g c) eqn:?; cbn [rbind]; [|clean_failed]
  end.

Ltac clean_lift :=
  rewrite bind_lift;
  match goal with
  | |- context [rbind ?r _] => destruct r eqn:?; cbn [rbind]; [|clean_failed]
  end.

Ltac clean_set := rewrite bind_setitem.

(** [clean_data] on a live frame: a new frame is put at the end of the heap,
    nothing else changes, and the outcome is that of [cleaned]. *)
Lemma clean_data_run (h : heap) (df : loc) (f : frame) :
  h !! df = Some f ->
  exists g,
    clean_data to_number df h =
    (match cleaned to_number f with
     | Ok _ => Ok (length h)
     | Raise e => Raise e
     end, h ++ [g]) /\
    forall f', cleaned to_number f = Ok f' -> g = f'.
Proof.
  intros Hf. unfold clean_data, cleaned.
  rewrite (bind_copy _ _ _ _ Hf).
  rewrite bind_fillna. cbv zeta.
  clean_get. clean_set.
  clean_get. clean_lift. clean_set.
  clean_get. clean_lift. clean_set.
  clean_get. clean_get. clean_lift. clean_set.
  clean_get. clean_get. clean_lift. clean_set.
  clean_get. clean_get. clean_lift. clean_set.
  clean_get. clean_get. clean_lift. clean_set.
  unfold ret. eexists. split; [reflexivity|]. by intros ? [= <-].
Qed.

End Cleaning.

Section Frames.

Variable to_number : string -> option (Z + fl).

(** C9. [clean_data] does not change the frame it is given: after the call,
    with or without an exception, every frame that was on the heap is what
    it was (the input among them), and the frame returned is a new object,
    at a location that was free before the call. *)
Theorem clean_data_keeps_input (h : heap) (df : loc) :
  let out := clean_data to_number df h in
  snd out !! df = h !! df /\
  (forall l f, h !! l = Some f -> snd out !! l = Some f) /\
  (forall df', fst out = Ok df' ->
     df' <> df /\ h !! df' = None /\ is_Some (snd out !! df')).
Proof.
  destruct (h !! df) as [f|] eqn:Hf.
  - destruct (clean_data_run to_number h df f Hf) as (g & -> & _). cbn.
    split; [|split].
    + apply lookup_lt_Some in Hf as Hlt. by rewrite lookup_app_l.
    + intros l f0 Hl. apply lookup_lt_Some in Hl as Hlt.
      by rewrite lookup_app_l.
    + intros df' Hdf'. assert (df' = length h) as ->
        by (destruct (cleaned to_number f); congruence).
      apply lookup_lt_Some in Hf. split; [lia|].
      split; [by apply lookup_ge_None|]. rewrite read_last. by eexists.
  - assert (clean_data to_number df h = (Raise DanglingReference, h)) as ->.
    { unfold clean_data, bind, df_copy, bind, read_frame. by rewrite Hf. }
    cbn. split; [done|]. split; [done|]. intros ? [=].
Qed.

(** *** Columns of a frame *)

Lemma column_set_column (c c' : string) (s : series) (f : frame) :
  column (set_column c s f) c' =
  if String.eqb c' c then Some s else column f c'.
Proof.
  induction f as [|[c0 s0] f IH]; simpl.
  - done.
  - destruct (String.eqb c c0) eqn:Hc; simpl.
    + apply String.eqb_eq in Hc as <-. by destruct (String.eqb c' c).
    + destruct (String.eqb c' c0) eqn:Hc0; [|done].
      apply String.eqb_eq in Hc0 as ->.
      destruct (String.eqb c0 c) eqn:Hc1; [|done].
      apply String.eqb_eq in Hc1 as ->. by rewrite String.eqb_refl in Hc.
Qed.

Lemma column_fillna (f : frame) (c : string) :
  column (map (fun cs => (fst cs, fillna0 (snd cs))) f) c =
  fillna0 <$> column f c.
Proof.
  induction f as [|[c0 s0] f IH]; simpl; [done|].
  by destruct (String.eqb c c0).
Qed.

Lemma get_Ok (f : frame) (c : string) (s : series) :
  get f c = Ok s <-> column f c = Some s.
Proof. unfold get. destruct (column f c); split; congruence. Qed.

Lemma str_strip_astype_str (s : series) :
  str_strip (astype_str s) =
  Ok (Object (map (fun o => PStr (strip (py_str o))) (cells s))).
Proof.
  unfold astype_str, str_strip. f_equal. f_equal. by rewrite map_map.
Qed.

(** What [cleaned] leaves in each column, in terms of the frame it is
    given. *)
Lemma cleaned_inv (f f' : frame) :
  cleaned to_number f = Ok f' ->
  exists volume name description sd pd sq pq gross margin turnover ratio,
    column f "Volume" = Some volume /\
    column f "VendorName" = Some name /\
    column f "Description" = Some description /\
    column f "TotalSalesDollars" = Some sd /\
    column f "TotalPurchaseDollars" = Some pd /\
    column f "TotalSalesQuantity" = Some sq /\
    column f "TotalPurchaseQuantity" = Some pq /\
    series_sub (fillna0 sd) (fillna0 pd) = Ok gross /\
    series_div gross (replace_0_1 (fillna0 sd)) = Ok margin /\
    series_div (fillna0 sq) (replace_0_1 (fillna0 pq)) = Ok turnover /\
    series_div (fillna0 sd) (replace_0_1 (fillna0 pd)) = Ok ratio /\
    forall c,
      column f' c =
      if String.eqb c "SalesToPurchaseRatio" then Some ratio
      else if String.eqb c "StockTurnover" then Some turnover
      else if String.eqb c "ProfitMargin" then Some margin
      else if String.eqb c "GrossProfit" then Some gross
      else if String.eqb c "Description" then
        Some (Object (map (fun o => PStr (strip (py_str o)))
                          (cells (fillna0 description))))
      else if String.eqb c "VendorName" then
        Some (Object (map (fun o => PStr (strip (py_str o)))
                          (cells (fillna0 name))))
      else if String.eqb c "Volume" then
        Some (fillna0 (to_numeric to_number (fillna0 volume)))
      else fillna0 <$> column f c.
Proof.
  unfold cleaned. cbv zeta. intros H.
  repeat match type of H with
         | rbind ?r _ = Ok _ =>
             let s := fresh "s" in
             destruct r as [s|] eqn:?; cbn [rbind] in H; [|discriminate]
         end.
  injection H as <-.
  repeat match goal with
         | H : get _ _ = Ok _ |- _ =>
             apply get_Ok in H;
             rewrite ?column_set_column, ?column_fillna in H; simpl in H
         | H : str_strip (astype_str _) = Ok _ |- _ =>
             rewrite str_strip_astype_str in H; injection H as <-
         end.
  repeat match goal with
         | H : fillna0 <$> column f ?c = Some _ |- _ =>
             let s := fresh "s" in
             destruct (column f c) as [s|] eqn:?; simpl in H;
             [injection H as <-|discriminate]
         | H : fillna0 <$> Some _ = Some _ |- _ => simpl in H; injection H as <-
         | H : Some _ = Some _ |- _ => injection H as <-
         end.
  do 11 eexists. repeat (split; [eassumption || reflexivity|]).
  intros c. rewrite !column_set_column, column_fillna. reflexivity.
Qed.

End Frames.

(** ** Cells of a cleaned column *)

Section Cells.

Variable to_number : string -> option (Z + fl).

Lemma cells_fillna0 (s : series) (i : nat) :
  cells (fillna0 s) !! i = filled s <$> cells s !! i.
Proof.
  destruct s as [xs|xs|xs]; simpl; rewrite ?list_lookup_fmap.
  - by destruct (xs !! i).
  - by destruct (xs !! i).
  - done.
Qed.

Lemma cells_length_fillna0 (s : series) :
  length (cells (fillna0 s)) = length (cells s).
Proof. destruct s; simpl; by rewrite ?length_map. Qed.

Lemma zero_if_nan_idemp (x : fl) : zero_if_nan (zero_if_nan x) = zero_if_nan x.
Proof. by destruct x. Qed.


(** The Volume statement cell by cell: [to_numeric] between two
    [fillna(0)]. *)
Lemma volume_cell (s : series) (i : nat) (o : pyobj) :
  cells s !! i = Some o ->
  exists n,
    cells (fillna0 (to_numeric to_number (fillna0 s))) !! i = Some n /\
    as_fl n = Some (zero_if_nan (to_fl (coerce_cell to_number (filled s o)))).
Proof.
  destruct s as [xs|xs|xs]; simpl; rewrite ?list_lookup_fmap; intros Ho.
  - destruct (xs !! i) as [z|]; [|done]. injection Ho as <-.
    by exists (PInt z).
  - destruct (xs !! i) as [x|]; [|done]. injection Ho as <-. simpl.
    exists (PFloat (zero_if_nan (zero_if_nan x))). split; [done|].
    simpl. by rewrite zero_if_nan_idemp.
  - destruct (mapM only_int (map (coerce_cell to_number) (map zero_if_na xs)))
      as [zs|] eqn:Hm; simpl.
    + apply mapM_Some in Hm.
      assert (Hi : map (coerce_cell to_number) (map zero_if_na xs) !! i =
                   Some (coerce_cell to_number (zero_if_na o)))
        by (by rewrite !list_lookup_fmap, Ho).
      destruct (Forall2_lookup_l _ _ _ _ _ Hm Hi) as (z & Hz & Hint).
      exists (PInt z). rewrite list_lookup_fmap, Hz. split; [done|].
      destruct (coerce_cell to_number (zero_if_na o)); [|done].
      by injection Hint as ->.
    + rewrite !list_lookup_fmap, Ho. simpl. by eexists.
Qed.





End Cells.

(** ** clean_data: text and Volume *)

Section Normalisation.

Variable to_number : string -> option (Z + fl).

Lemma clean_data_Ok (h h' : heap) (df df' : loc) (f : frame) :
  h !! df = Some f ->
  clean_data to_number df h = (Ok df', h') ->
  exists f',
    cleaned to_number f = Ok f' /\ df' = length h /\ h' = h ++ [f'].
Proof.
  intros Hf Hrun.
  destruct (clean_data_run to_number h df f Hf) as (g & Hg & Hf').
  rewrite Hg in Hrun. destruct (cleaned to_number f) as [f'|]; [|done].
  exists f'. injection Hrun as <- <-. by rewrite (Hf' f').
Qed.





End Normalisation.

Example clean_data_sample :
  exists f',
    clean_data decimal_number 0 [sample_frame] = (Ok 1, [sample_frame; f']) /\
    column f' "VendorName" = Some (Object [PStr "Acme"; PStr "0"]) /\
    column f' "Description" = Some (Object [PStr "Gin"; PStr "Rum"]) /\
    column f' "Volume" = Some (Float64 [FFin (inject_Z 750); FFin 0]).
Proof. eexists. repeat split; vm_compute; reflexivity. Qed.




(** ** Arithmetic on columns of finite numbers *)

Lemma Qeq_bool_inject_Z_0 (z : Z) : Qeq_bool (inject_Z z) 0 = (z =? 0)%Z.
Proof.
  unfold Qeq_bool, inject_Z. simpl. by rewrite Z.mul_1_r.
Qed.

Lemma rmap2_lookup {A B C} (f : A -> B -> result C) (l1 : list A) (l2 : list B)
  (zs : list C) (i : nat) (x : A) (y : B) :
  rmap2 f l1 l2 = Ok zs -> l1 !! i = Some x -> l2 !! i = Some y ->
  exists z, zs !! i = Some z /\ f x y = Ok z.
Proof.
  revert l2 zs i. induction l1 as [|a l1 IH]; intros [|b l2] zs i; try done.
  simpl. destruct (f a b) as [z0|] eqn:Hf; simpl; [|done].
  destruct (rmap2 f l1 l2) as [zs0|] eqn:Hr; simpl; [|done].
  intros [= <-]. destruct i as [|i]; simpl.
  - intros [= <-] [= <-]. eauto.
  - intros Hx Hy. eapply IH; eauto.
Qed.

Lemma rmap2_total {A B C} (f : A -> B -> result C) (l1 : list A) (l2 : list B) :
  (forall i x y, l1 !! i = Some x -> l2 !! i = Some y -> exists z, f x y = Ok z) ->
  exists zs, rmap2 f l1 l2 = Ok zs.
Proof.
  revert l2. induction l1 as [|a l1 IH]; intros [|b l2] Hall; simpl; eauto.
  destruct (Hall 0 a b eq_refl eq_refl) as (z & ->). simpl.
  destruct (IH l2) as (zs & ->); [|simpl; eauto].
  intros i x y Hx Hy. apply (Hall (S i) x y Hx Hy).
Qed.

Lemma py_sub_finite (x y : pyobj) (qx qy : Q) :
  finite x = Some qx -> finite y = Some qy ->
  exists z qz, py_sub x y = Ok z /\ finite z = Some qz /\ (qz == qx - qy)%Q.
Proof.
  destruct x as [|zx|[| | |fx]|], y as [|zy|[| | |fy]|]; simpl; try done;
    intros [= <-] [= <-]; eexists _, _; (split; [reflexivity|]);
    (split; [reflexivity|]); try reflexivity.
  unfold Zminus. by rewrite inject_Z_plus, inject_Z_opp.
Qed.

Lemma series_sub_cells (a b g : series) (i : nat) (x y : pyobj) :
  series_sub a b = Ok g ->
  cells a !! i = Some x -> cells b !! i = Some y ->
  exists z, cells g !! i = Some z /\ py_sub x y = Ok z.
Proof.
  assert (Hr : rbind (rmap2 py_sub (cells a) (cells b))
                 (fun zs => Ok (Object zs)) = Ok g ->
               cells a !! i = Some x -> cells b !! i = Some y ->
               exists z, cells g !! i = Some z /\ py_sub x y = Ok z).
  { destruct (rmap2 py_sub (cells a) (cells b)) as [zs|] eqn:Hm; [|done].
    intros [= <-]. simpl. eauto using rmap2_lookup. }
  destruct a as [xs|xs|xs], b as [ys|ys|ys]; try exact Hr;
    simpl; intros [= <-]; simpl;
    rewrite !list_lookup_fmap, lookup_zip_with, ?list_lookup_fmap;
    destruct (xs !! i); try done; destruct (ys !! i); try done;
    simpl; intros [= <-] [= <-]; eauto.
Qed.

Lemma series_sub_total (a b : series) :
  all_finite a -> all_finite b -> exists g, series_sub a b = Ok g.
Proof.
  intros Ha Hb.
  assert (Hr : exists g, rbind (rmap2 py_sub (cells a) (cells b))
                           (fun zs => Ok (Object zs)) = Ok g).
  { destruct (rmap2_total py_sub (cells a) (cells b)) as (zs & ->);
      [|simpl; eauto].
    intros i x y Hx Hy.
    destruct (Forall_lookup_1 _ _ _ _ Ha Hx) as (qx & Hqx).
    destruct (Forall_lookup_1 _ _ _ _ Hb Hy) as (qy & Hqy).
    destruct (py_sub_finite x y qx qy Hqx Hqy) as (z & _ & Hz & _). eauto. }
  destruct a, b; simpl; eauto.
Qed.


Lemma series_div_total (a b : series) :
  all_finite a -> all_finite b ->
  Forall (fun o => is_zero o = false) (cells b) ->
  exists g, series_div a b = Ok g.
Proof.
  intros Ha Hb Hnz.
  assert (Hr : exists g, rbind (rmap2 py_truediv (cells a) (cells b))
                           (fun zs => Ok (Object zs)) = Ok g).
  { destruct (rmap2_total py_truediv (cells a) (cells b)) as (zs & ->);
      [|simpl; eauto].
    intros i x y Hx Hy.
    destruct (Forall_lookup_1 _ _ _ _ Ha Hx) as (qx & Hqx).
    destruct (Forall_lookup_1 _ _ _ _ Hb Hy) as (qy & Hqy).
    pose proof (Forall_lookup_1 _ _ _ _ Hnz Hy) as Hy0.
    unfold py_truediv. rewrite Hy0.
    destruct x as [| |[]|], y as [| |[]|]; simpl in *; try done; eauto. }
  destruct a, b; simpl; eauto.
Qed.

Lemma rmap2_length {A B C} (f : A -> B -> result C) (l1 : list A) (l2 : list B)
  (zs : list C) :
  rmap2 f l1 l2 = Ok zs -> length zs = min (length l1) (length l2).
Proof.
  revert l2 zs. induction l1 as [|a l1 IH]; intros [|b l2] zs; simpl;
    try (by intros [= <-]).
  destruct (f a b); simpl; [|done].
  destruct (rmap2 f l1 l2) eqn:Hr; simpl; [|done].
  intros [= <-]. simpl. f_equal. by apply IH.
Qed.

Lemma series_sub_length (a b g : series) :
  series_sub a b = Ok g ->
  length (cells g) = min (length (cells a)) (length (cells b)).
Proof.
  assert (Hr : rbind (rmap2 py_sub (cells a) (cells b))
                 (fun zs => Ok (Object zs)) = Ok g ->
               length (cells g) = min (length (cells a)) (length (cells b))).
  { destruct (rmap2 py_sub (cells a) (cells b)) as [zs|] eqn:Hm; [|done].
    intros [= <-]. simpl. by eapply rmap2_length. }
  destruct a, b; try exact Hr; simpl; intros [= <-]; simpl;
    by rewrite !length_map, length_zip_with, ?length_map.
Qed.

Lemma series_sub_finite (a b g : series) :
  all_finite a -> all_finite b -> series_sub a b = Ok g -> all_finite g.
Proof.
  intros Ha Hb Hg. apply Forall_lookup_2. intros i z Hz.
  pose proof (series_sub_length a b g Hg) as Hlen.
  apply lookup_lt_Some in Hz as Hi.
  destruct (lookup_lt_is_Some_2 (cells a) i) as (x & Hx); [lia|].
  destruct (lookup_lt_is_Some_2 (cells b) i) as (y & Hy); [lia|].
  destruct (Forall_lookup_1 _ _ _ _ Ha Hx) as (qx & Hqx).
  destruct (Forall_lookup_1 _ _ _ _ Hb Hy) as (qy & Hqy).
  destruct (series_sub_cells a b g i x y Hg Hx Hy) as (z' & Hz' & Hsub).
  destruct (py_sub_finite x y qx qy Hqx Hqy) as (z2 & qz & Hsub2 & Hfin & _).
  rewrite Hz in Hz'. injection Hz' as <-.
  rewrite Hsub in Hsub2. injection Hsub2 as <-. by eexists.
Qed.

(** [replace(0, 1)] on a finite cell: 1 for 0, and never 0 afterwards. *)
Lemma replace_0_1_cell (s : series) (i : nat) (o : pyobj) (q : Q) :
  cells s !! i = Some o -> finite o = Some q ->
  exists o',
    cells (replace_0_1 s) !! i = Some o' /\
    finite o' = Some (if Qeq_bool q 0 then 1%Q else q) /\
    is_zero o' = false.
Proof.
  destruct s as [xs|xs|xs]; simpl; rewrite !list_lookup_fmap.
  - destruct (xs !! i) as [z|]; [|done]. simpl. intros [= <-] [= <-].
    rewrite Qeq_bool_inject_Z_0. eexists. split; [reflexivity|].
    destruct (z =? 0)%Z eqn:Hz; simpl; [done|]. by rewrite Hz.
  - destruct (xs !! i) as [x|]; [|done]. simpl. intros [= <-].
    destruct x as [| | |q0]; try done. simpl. intros [= <-].
    eexists. split; [reflexivity|].
    destruct (Qeq_bool q0 0) eqn:Hz; simpl; [done|]. by rewrite Hz.
  - destruct (xs !! i) as [x|]; [|done]. simpl. intros [= <-] Hq.
    eexists. split; [reflexivity|].
    destruct x as [|z|[| | |q0]|]; simpl in *; try done; injection Hq as <-.
    + rewrite Qeq_bool_inject_Z_0.
      destruct (z =? 0)%Z eqn:Hz; simpl; [done|]. by rewrite Hz.
    + destruct (Qeq_bool q0 0) eqn:Hz; simpl; [done|]. by rewrite Hz.
Qed.

Lemma replace_0_1_finite (s : series) :
  all_finite s ->
  all_finite (replace_0_1 s) /\
  Forall (fun o => is_zero o = false) (cells (replace_0_1 s)).
Proof.
  intros Hs. split; apply Forall_lookup_2; intros i o' Ho'.
  - assert (Hlen : i < length (cells s)).
    { apply lookup_lt_Some in Ho'.
      destruct s; simpl in *; by rewrite !length_map in *. }
    destruct (lookup_lt_is_Some_2 _ _ Hlen) as (o & Ho).
    destruct (Forall_lookup_1 _ _ _ _ Hs Ho) as (q & Hq).
    destruct (replace_0_1_cell s i o q Ho Hq) as (o2 & Ho2 & Hf & _).
    rewrite Ho' in Ho2. injection Ho2 as <-. by eexists.
  - assert (Hlen : i < length (cells s)).
    { apply lookup_lt_Some in Ho'.
      destruct s; simpl in *; by rewrite !length_map in *. }
    destruct (lookup_lt_is_Some_2 _ _ Hlen) as (o & Ho).
    destruct (Forall_lookup_1 _ _ _ _ Hs Ho) as (q & Hq).
    destruct (replace_0_1_cell s i o q Ho Hq) as (o2 & Ho2 & _ & Hz).
    rewrite Ho' in Ho2. by injection Ho2 as <-.
Qed.

(** ** From the rows of the query to the cleaned frame *)

Lemma series_of_column_length (vs : list sqlval) :
  length (cells (series_of_column vs)) = length vs.
Proof.
  unfold series_of_column. destruct (forallb is_null vs).
  - simpl. by rewrite length_map.
  - destruct (mapM sql_int vs) as [zs|] eqn:Hi.
    + simpl. rewrite length_map. symmetry. by eapply length_mapM.
    + destruct (mapM sql_float vs) as [fs|] eqn:Hf; simpl; rewrite length_map.
      * symmetry. by eapply length_mapM.
      * done.
Qed.

(** A cell of a column read from the query, after [fillna(0)]: the number
    the value stands for, with 0 for NULL. *)
Lemma series_of_column_cell (vs : list sqlval) (i : nat) (v : sqlval) :
  vs !! i = Some v ->
  exists o,
    cells (fillna0 (series_of_column vs)) !! i = Some o /\
    forall q, null_as_zero v = Some q -> finite o = Some q.
Proof.
  intros Hv. rewrite cells_fillna0. unfold series_of_column.
  destruct (forallb is_null vs) eqn:Hnull.
  - simpl. rewrite list_lookup_fmap, Hv. simpl. eexists. split; [done|].
    rewrite forallb_forall in Hnull.
    assert (is_null v = true) as Hn
      by (apply Hnull, list_elem_of_In; by eapply list_elem_of_lookup_2).
    destruct v; try done; simpl; by intros q [= <-].
  - destruct (mapM sql_int vs) as [zs|] eqn:Hi.
    + apply mapM_Some in Hi.
      destruct (Forall2_lookup_l _ _ _ _ _ Hi Hv) as (z & Hz & Hint).
      simpl. rewrite list_lookup_fmap, Hz. simpl. eexists. split; [done|].
      destruct v as [|[z'|]|]; try done; injection Hint as ->;
        simpl; by intros q [= <-].
    + destruct (mapM sql_float vs) as [fs|] eqn:Hf.
      * apply mapM_Some in Hf.
        destruct (Forall2_lookup_l _ _ _ _ _ Hf Hv) as (x & Hx & Hfl).
        simpl. rewrite list_lookup_fmap, Hx. simpl. eexists. split; [done|].
        destruct v as [|n|]; try done; injection Hfl as <-; simpl;
          by intros q [= <-].
      * simpl. rewrite list_lookup_fmap, Hv. simpl. eexists. split; [done|].
        destruct v as [|[z|q0]|]; try done; simpl; by intros q [= <-].
Qed.

(** A column of measures (a number or NULL) is finite once filled. *)
Lemma measures_finite {A} (m : A -> option num) (rows : list A) :
  all_finite (fillna0 (series_of_column (map (fun r => of_measure (m r)) rows))).
Proof.
  apply Forall_lookup_2. intros i o Ho.
  assert (Hlen : i < length (map (fun r => of_measure (m r)) rows)).
  { apply lookup_lt_Some in Ho.
    by rewrite cells_length_fillna0, series_of_column_length in Ho. }
  destruct (lookup_lt_is_Some_2 _ _ Hlen) as (v & Hv).
  destruct (series_of_column_cell _ i v Hv) as (o' & Ho' & Hfin).
  rewrite Ho in Ho'. injection Ho' as <-.
  rewrite list_lookup_fmap in Hv. destruct (rows !! i) as [r|]; [|done].
  injection Hv as <-. destruct (m r) as [n|]; simpl in Hfin; eauto.
Qed.


Section QueryFrame.

Variable to_number : string -> option (Z + fl).

(** On a frame of the query, [cleaned] does not fail. *)
Lemma cleaned_query_frame (rows : list summary_row) :
  exists f',
    cleaned to_number (query_frame rows) = Ok f' /\ n_rows f' = length rows.
Proof.
  pose proof (measures_finite TotalSalesDollars rows) as Hsd.
  pose proof (measures_finite TotalPurchaseDollars rows) as Hpd.
  pose proof (measures_finite TotalSalesQuantity rows) as Hsq.
  pose proof (measures_finite TotalPurchaseQuantity rows) as Hpq.
  destruct (replace_0_1_finite _ Hsd) as (Hsd1 & Hsd0).
  destruct (replace_0_1_finite _ Hpd) as (Hpd1 & Hpd0).
  destruct (replace_0_1_finite _ Hpq) as (Hpq1 & Hpq0).
  destruct (series_sub_total _ _ Hsd Hpd) as (gross & Hgross).
  pose proof (series_sub_finite _ _ _ Hsd Hpd Hgross) as Hg.
  destruct (series_div_total _ _ Hg Hsd1 Hsd0) as (margin & Hmargin).
  destruct (series_div_total _ _ Hsq Hpq1 Hpq0) as (turnover & Hturnover).
  destruct (series_div_total _ _ Hsd Hpd1 Hpd0) as (ratio & Hratio).
  unfold cleaned, query_frame. cbn [map fst snd].
  cbn [get column set_column String.eqb Ascii.eqb Bool.eqb rbind].
  rewrite str_strip_astype_str. cbn [rbind get column set_column String.eqb Ascii.eqb Bool.eqb].
  rewrite str_strip_astype_str. cbn [rbind get column set_column String.eqb Ascii.eqb Bool.eqb].
  rewrite Hgross. cbn [rbind get column set_column String.eqb Ascii.eqb Bool.eqb].
  rewrite Hmargin. cbn [rbind get column set_column String.eqb Ascii.eqb Bool.eqb].
  rewrite Hturnover. cbn [rbind get column set_column String.eqb Ascii.eqb Bool.eqb].
  rewrite Hratio. cbn [rbind]. eexists. split; [reflexivity|].
  cbn [n_rows]. by rewrite cells_length_fillna0, series_of_column_length, length_map.
Qed.

End QueryFrame.

(** ** The metrics *)




Section Metrics.

Variable to_number : string -> option (Z + fl).

Lemma create_vendor_summary_Ok (c : conn) (h h1 : heap) (df : loc) :
  create_vendor_summary c h = (Ok df, h1) ->
  exists rows,
    run_summary_query (detect_product_column (table_columns c "purchases"))
      (live c) = Ok rows /\
    df = length h /\ h1 = h ++ [query_frame rows].
Proof.
  unfold create_vendor_summary. rewrite bind_lift.
  destruct (run_summary_query _ _) as [rows|]; [|done].
  unfold new_frame. intros [= <- <-]. eauto.
Qed.

(** [clean_data] on the frame [create_vendor_summary] has just made. *)
Lemma clean_query_frame (h : heap) (rows : list summary_row) :
  exists f',
    cleaned to_number (query_frame rows) = Ok f' /\
    n_rows f' = length rows /\
    clean_data to_number (length h) (h ++ [query_frame rows]) =
    (Ok (S (length h)), h ++ [query_frame rows] ++ [f']).
Proof.
  destruct (cleaned_query_frame to_number rows) as (f' & Hclean & Hrows).
  exists f'. split; [done|]. split; [done|].
  destruct (clean_data_run to_number (h ++ [query_frame rows]) (length h)
              (query_frame rows) (read_last _ _)) as (g & -> & Hg).
  rewrite Hclean, (Hg f' Hclean), length_app, Nat.add_1_r.
  by rewrite <- app_assoc.
Qed.



End Metrics.


(** ** The query: GROUP BY and LEFT JOIN lose no row *)

Section Grouping.

Context {A : Type} (same : A -> A -> bool).

Lemma add_to_groups_covers (x : A) (groups : list (A * list A)) :
  same x x = true ->
  exists g, g ∈ add_to_groups same x groups /\ same (fst g) x = true.
Proof.
  intros Hrefl. induction groups as [|[r members] rest IH]; simpl.
  - exists (x, []). split; [left|done].
  - destruct (same r x) eqn:Hr.
    + exists (r, members ++ [x]). split; [left|done].
    + destruct IH as (g & Hg & Hsame). exists g. split; [by right|done].
Qed.

Lemma add_to_groups_keeps (x : A) (groups : list (A * list A)) (g : A * list A) :
  g ∈ groups ->
  exists g', g' ∈ add_to_groups same x groups /\ fst g' = fst g.
Proof.
  induction groups as [|[r members] rest IH]; simpl.
  - intros Hg. by apply elem_of_nil in Hg.
  - intros [-> | Hg]%elem_of_cons.
    + destruct (same r x); eexists; (split; [left|done]).
    + destruct (same r x).
      * exists g. split; [by right|done].
      * destruct (IH Hg) as (g' & Hg' & Hfst). exists g'.
        split; [by right|done].
Qed.

Lemma add_to_groups_first (x : A) (groups : list (A * list A)) (g : A * list A) :
  g ∈ add_to_groups same x groups ->
  fst g = x \/ exists g0, g0 ∈ groups /\ fst g0 = fst g.
Proof.
  induction groups as [|[r members] rest IH]; simpl.
  - intros [-> | Hg]%elem_of_cons; [by left|]. by apply elem_of_nil in Hg.
  - destruct (same r x).
    + intros [-> | Hg]%elem_of_cons; right.
      * exists (r, members). split; [left|done].
      * exists g. split; [by right|done].
    + intros [-> | Hg]%elem_of_cons.
      * right. exists (r, members). split; [left|done].
      * destruct (IH Hg) as [Hx | (g0 & Hg0 & Hfst)]; [by left|].
        right. exists g0. split; [by right|done].
Qed.

Lemma fold_groups_covers (rows : list A) (groups : list (A * list A)) (x : A) :
  (forall y, same y y = true) ->
  x ∈ rows \/ (exists g, g ∈ groups /\ same (fst g) x = true) ->
  exists g,
    g ∈ fold_left (fun gs y => add_to_groups same y gs) rows groups /\
    same (fst g) x = true.
Proof.
  intros Hrefl. revert groups.
  induction rows as [|y rows IH]; intros groups; simpl.
  - intros [Hx | Hg]; [by apply elem_of_nil in Hx|done].
  - intros [[-> | Hx]%elem_of_cons | (g & Hg & Hsame)]; apply IH.
    + right. by apply add_to_groups_covers.
    + by left.
    + right. destruct (add_to_groups_keeps y groups g Hg) as (g' & Hg' & Hfst).
      exists g'. by rewrite Hfst.
Qed.

Lemma fold_groups_first (rows : list A) (groups : list (A * list A))
  (g : A * list A) :
  g ∈ fold_left (fun gs y => add_to_groups same y gs) rows groups ->
  fst g ∈ rows \/ exists g0, g0 ∈ groups /\ fst g0 = fst g.
Proof.
  revert groups. induction rows as [|y rows IH]; intros groups; simpl.
  - intros Hg. right. by exists g.
  - intros Hg. destruct (IH _ Hg) as [Hin | (g0 & Hg0 & Hfst)].
    + left. by right.
    + destruct (add_to_groups_first y groups g0 Hg0) as [Hy | (g1 & Hg1 & Hfst1)].
      * left. rewrite <- Hfst, Hy. left.
      * right. exists g1. split; [done|congruence].
Qed.

(** Every row falls into a group, whose first row it is the same as. *)
Lemma group_by_covers (rows : list A) (x : A) :
  (forall y, same y y = true) -> x ∈ rows ->
  exists g, g ∈ group_by same rows /\ same (fst g) x = true.
Proof. intros Hrefl Hx. apply fold_groups_covers; auto. Qed.

(** The first row of a group is a row. *)
Lemma group_by_first (rows : list A) (g : A * list A) :
  g ∈ group_by same rows -> fst g ∈ rows.
Proof.
  intros Hg. destruct (fold_groups_first rows [] g Hg) as [|(g0 & Hg0 & _)];
    [done|]. by apply elem_of_nil in Hg0.
Qed.

End Grouping.

Lemma left_join_covers {A B} (on : A -> B -> bool) (l : list A) (r : list B)
  (x : A) :
  x ∈ l ->
  exists o,
    (x, o) ∈ left_join on l r /\
    ((forall y, y ∈ r -> on x y = false) -> o = None).
Proof.
  intros Hx. unfold left_join.
  destruct (List.filter (on x) r) as [|y matches] eqn:Hf.
  - exists None. split; [|done]. apply list_elem_of_In, in_flat_map.
    exists x. split; [by apply list_elem_of_In|]. rewrite Hf. by left.
  - exists (Some y). split.
    + apply list_elem_of_In, in_flat_map.
      exists x. split; [by apply list_elem_of_In|]. rewrite Hf. by left.
    + intros Hnone. exfalso.
      assert (Hy : In y (List.filter (on x) r)) by (rewrite Hf; by left).
      apply filter_In in Hy as [Hy Hon].
      rewrite (Hnone y) in Hon; [done|by apply list_elem_of_In].
Qed.

Lemma left_join_left {A B} (on : A -> B -> bool) (l : list A) (r : list B)
  (x : A) (o : option B) :
  (x, o) ∈ left_join on l r -> x ∈ l.
Proof.
  unfold left_join. intros Hx. apply list_elem_of_In, in_flat_map in Hx
    as (x' & Hx' & Hin). apply list_elem_of_In.
  destruct (List.filter (on x') r) as [|y matches].
  - destruct Hin as [[= <- _]|[]]. done.
  - apply in_map_iff in Hin as (y' & [= <- _] & _). done.
Qed.

Lemma id_is_eq (a b : option Z) : id_is a b = true <-> a = b.
Proof.
  destruct a as [x|], b as [y|]; simpl; split; try done.
  - intros ->%Z.eqb_eq. done.
  - intros [= ->]. apply Z.eqb_refl.
Qed.

Lemma sqlval_is_refl (v : sqlval) : sqlval_is v v = true.
Proof.
  destruct v; simpl; [done|apply Qeq_bool_refl|apply String.eqb_refl].
Qed.

Lemma same_purchase_group_refl (product_col : option string)
  (j : purchases_row * option product_prices_row) :
  same_purchase_group product_col j j = true.
Proof.
  unfold same_purchase_group.
  rewrite !sqlval_is_refl, !(proj2 (id_is_eq _ _) eq_refl). done.
Qed.

Lemma purchases_joined_covers (product_col : option string)
  (rows : list purchases_row) (prices : list product_prices_row)
  (p : purchases_row) :
  p ∈ rows ->
  exists j, j ∈ purchases_joined product_col rows prices /\ fst j = p.
Proof.
  intros Hp. unfold purchases_joined. destruct (truthy product_col) as [col|].
  - destruct (left_join_covers
                (fun p pp => id_eq (p_get col (p_other p)) (pp_ProductID pp))
                rows prices p Hp) as (o & Ho & _).
    by exists (p, o).
  - exists (p, None). split; [|done].
    by apply (list_elem_of_fmap_2 (fun p => (p, None))).
Qed.

(** A purchase is counted in a row of PurchaseSummary with its vendor and
    brand. *)
Lemma PurchaseSummary_covers (product_col : option string)
  (rows : list purchases_row) (prices : list product_prices_row)
  (p : purchases_row) :
  p ∈ rows ->
  exists ps,
    ps ∈ PurchaseSummary product_col rows prices /\
    ps_VendorNumber ps = p_VendorNumber p /\ ps_Brand ps = p_Brand p.
Proof.
  intros Hp.
  destruct (purchases_joined_covers product_col rows prices p Hp)
    as (j & Hj & <-).
  destruct (group_by_covers (same_purchase_group product_col) _ j
              (same_purchase_group_refl product_col) Hj) as (g & Hg & Hsame).
  unfold same_purchase_group in Hsame.
  repeat (apply andb_true_iff in Hsame as [Hsame ?]).
  eexists. split.
  - unfold PurchaseSummary. apply list_elem_of_fmap_2, Hg.
  - simpl. split; by apply id_is_eq.
Qed.

Lemma SalesSummary_keys (sold : list sales_row) (ss : sales_summary_row) :
  ss ∈ SalesSummary sold ->
  exists s, s ∈ sold /\ ss_VendorNo ss = s_VendorNo s /\ ss_Brand ss = s_Brand s.
Proof.
  unfold SalesSummary. intros (g & -> & Hg)%list_elem_of_fmap_1.
  exists (fst g). split; [by eapply group_by_first|done].
Qed.

Lemma FreightSummary_keys (invoices : list vendor_invoice_row)
  (fs : freight_summary_row) :
  fs ∈ FreightSummary invoices ->
  exists v, v ∈ invoices /\ fs_VendorNumber fs = vi_VendorNumber v.
Proof.
  unfold FreightSummary. intros (g & -> & Hg)%list_elem_of_fmap_1.
  exists (fst g). split; [by eapply group_by_first|done].
Qed.

(** Every purchase is in a row of the result, with NULL for the sales of a
    vendor and brand that sold nothing and for the freight of a vendor
    without an invoice. *)
Lemma summary_query_covers (product_col : option string)
  (invoices : list vendor_invoice_row) (rows : list purchases_row)
  (sold : list sales_row) (prices : list product_prices_row)
  (p : purchases_row) :
  p ∈ rows ->
  exists r,
    r ∈ summary_query product_col invoices rows sold prices /\
    VendorNumber r = p_VendorNumber p /\ Brand r = p_Brand p /\
    ((forall s, s ∈ sold ->
        id_eq (p_VendorNumber p) (s_VendorNo s) &&
        id_eq (p_Brand p) (s_Brand s) = false) ->
     TotalSalesQuantity r = None /\ TotalSalesDollars r = None) /\
    ((forall v, v ∈ invoices ->
        id_eq (p_VendorNumber p) (vi_VendorNumber v) = false) ->
     FreightCost r = None).
Proof.
  intros Hp.
  destruct (PurchaseSummary_covers product_col rows prices p Hp)
    as (ps & Hps & Hvendor & Hbrand).
  destruct (left_join_covers on_sales _ (SalesSummary sold) ps Hps)
    as (ss & Hss & Hnosale).
  destruct (left_join_covers on_freight _ (FreightSummary invoices) (ps, ss) Hss)
    as (fs & Hfs & Hnofreight).
  exists (project (ps, ss, fs)). split; [|split; [done|split; [done|split]]].
  - unfold summary_query. rewrite merge_sort_Permutation.
    by apply (list_elem_of_fmap_2 project).
  - intros Hnone. rewrite Hnosale; [done|].
    intros ss' (s & Hs & Hno & Hb)%SalesSummary_keys.
    unfold on_sales. rewrite Hvendor, Hbrand, Hno, Hb. by apply Hnone.
  - intros Hnone. rewrite Hnofreight; [done|].
    intros fs' (v & Hv & Hno)%FreightSummary_keys.
    unfold on_freight. simpl. rewrite Hvendor, Hno. by apply Hnone.
Qed.

(** Without a product column every row has NULL for ActualPrice and Volume. *)
Lemma summary_query_unenriched (product_col : option string)
  (invoices : list vendor_invoice_row) (rows : list purchases_row)
  (sold : list sales_row) (prices : list product_prices_row) (r : summary_row) :
  truthy product_col = None ->
  r ∈ summary_query product_col invoices rows sold prices ->
  ActualPrice r = SNull /\ Volume r = SNull.
Proof.
  intros Hcol. unfold summary_query. rewrite merge_sort_Permutation.
  intros ([[ps ss] fs] & -> & Hj)%list_elem_of_fmap_1.
  apply left_join_left, left_join_left in Hj.
  unfold PurchaseSummary in Hj. apply list_elem_of_fmap_1 in Hj as (g & -> & _).
  simpl. unfold actual_price_of, volume_of. by rewrite Hcol.
Qed.

(** ** The pipeline: outer joins and the unenriched query *)

Lemma run_summary_query_Ok (product_col : option string) (s : store)
  (rows : list summary_row) :
  run_summary_query product_col s = Ok rows ->
  exists invoices bought sold,
    vendor_invoice s = Some invoices /\ purchases s = Some bought /\
    sales s = Some sold /\
    rows = summary_query product_col invoices (pur_rows bought) sold
             (default [] (product_prices s)).
Proof.
  unfold run_summary_query.
  destruct (vendor_invoice s) as [invoices|]; [|done].
  destruct (purchases s) as [bought|]; [|done].
  destruct (sales s) as [sold|]; [|done].
  destruct (truthy product_col), (product_prices s); try done;
    intros [= <-]; by exists invoices, bought, sold.
Qed.

Section Pipeline.

Variable to_number : string -> option (Z + fl).

(** A cell of a column [clean_data] only fills: the number the query
    returned, 0 for NULL. *)
Lemma kept_value (rows : list summary_row) (f' : frame) (c : string)
  (vs : list sqlval) (i : nat) (v : sqlval) (q : Q) :
  cleaned to_number (query_frame rows) = Ok f' ->
  column (query_frame rows) c = Some (series_of_column vs) ->
  contains assigned_columns c = false ->
  vs !! i = Some v -> null_as_zero v = Some q ->
  value f' c i = Some q.
Proof.
  intros Hclean Hc Hkept Hv Hq.
  destruct (cleaned_inv to_number _ f' Hclean)
    as (volume & name & description & sd & pd & sq & pq & gross & margin &
        turnover & ratio & _ & _ & _ & _ & _ & _ & _ & _ & _ & _ & _ & Hcol).
  unfold value, cell. rewrite Hcol. simpl in Hkept.
  repeat (apply orb_false_iff in Hkept as [-> Hkept]).
  rewrite Hc. simpl.
  destruct (series_of_column_cell vs i v Hv) as (o & -> & Hfin). simpl. auto.
Qed.

(** C4. Every purchase row is reported: the cleaned frame has a row with its
    VendorNumber and Brand (0 standing for NULL, as everywhere after the
    null-fill), and in that row TotalSalesQuantity and TotalSalesDollars are
    0 when no sales row has that vendor and brand, and FreightCost is 0
    when no invoice has that vendor. *)
Theorem purchases_all_reported (c : conn) (h h1 : heap) (df : loc)
  (bought : purchases_table) (p : purchases_row) :
  create_vendor_summary c h = (Ok df, h1) ->
  purchases (live c) = Some bought ->
  p ∈ pur_rows bought ->
  exists df' f' i,
    clean_data to_number df h1 = (Ok df', h1 ++ [f']) /\
    i < n_rows f' /\
    value f' "VendorNumber" i = Some (from_option inject_Z 0%Q (p_VendorNumber p)) /\
    value f' "Brand" i = Some (from_option inject_Z 0%Q (p_Brand p)) /\
    ((forall sold s,
        sales (live c) = Some sold -> s ∈ sold ->
        id_eq (p_VendorNumber p) (s_VendorNo s) &&
        id_eq (p_Brand p) (s_Brand s) = false) ->
     value f' "TotalSalesQuantity" i = Some 0%Q /\
     value f' "TotalSalesDollars" i = Some 0%Q) /\
    ((forall invoices v,
        vendor_invoice (live c) = Some invoices -> v ∈ invoices ->
        id_eq (p_VendorNumber p) (vi_VendorNumber v) = false) ->
     value f' "FreightCost" i = Some 0%Q).
Proof.
  intros Hcreate Hbought Hp.
  destruct (create_vendor_summary_Ok c h h1 df Hcreate) as (rows & Hq & -> & ->).
  destruct (run_summary_query_Ok _ _ _ Hq)
    as (invoices & bought' & sold & Hinvoices & Hbought' & Hsold & Hrows).
  rewrite Hbought in Hbought'. injection Hbought' as <-.
  destruct (summary_query_covers
              (detect_product_column (table_columns c "purchases"))
              invoices (pur_rows bought) sold
              (default [] (product_prices (live c))) p Hp)
    as (r & Hr & Hvendor & Hbrand & Hnosale & Hnofreight).
  rewrite <- Hrows in Hr. apply list_elem_of_lookup_1 in Hr as (i & Hi).
  destruct (clean_query_frame to_number h rows) as (f' & Hclean & Hlen & Hrun).
  exists (S (length h)), f', i. split; [by rewrite <- app_assoc|].
  split; [rewrite Hlen; by eapply lookup_lt_Some|].
  assert (Hkept : forall c (m : summary_row -> sqlval) q,
            column (query_frame rows) c = Some (series_of_column (map m rows)) ->
            contains assigned_columns c = false ->
            null_as_zero (m r) = Some q -> value f' c i = Some q).
  { intros c0 m q Hc Hk Hm.
    apply (kept_value rows f' c0 (map m rows) i (m r) q); auto.
    by rewrite list_lookup_fmap, Hi. }
  split; [|split; [|split]].
  - apply (Hkept _ (fun r => of_id (VendorNumber r))); [done..|].
    rewrite Hvendor. by destruct (p_VendorNumber p).
  - apply (Hkept _ (fun r => of_id (Brand r))); [done..|].
    rewrite Hbrand. by destruct (p_Brand p).
  - intros Hnone.
    destruct Hnosale as [Hsq Hsd]; [intros s Hs; by apply (Hnone sold)|].
    split.
    + apply (Hkept _ (fun r => of_measure (TotalSalesQuantity r))); [done..|].
      by rewrite Hsq.
    + apply (Hkept _ (fun r => of_measure (TotalSalesDollars r))); [done..|].
      by rewrite Hsd.
  - intros Hnone.
    apply (Hkept _ (fun r => of_measure (FreightCost r))); [done..|].
    rewrite Hnofreight; [done|]. intros v Hv. by apply (Hnone invoices).
Qed.

End Pipeline.

Section Unenriched.

Variable to_number : string -> option (Z + fl).

Lemma coerce_finite (o : pyobj) (q : Q) :
  finite o = Some q ->
  zero_if_nan (to_fl (coerce_cell to_number o)) = FFin q.
Proof. destruct o as [| |[]|]; simpl; try done; by intros [= <-]. Qed.

Lemma as_fl_finite (o : pyobj) (q : Q) :
  as_fl o = Some (FFin q) -> finite o = Some q.
Proof. destruct o as [| |[]|]; simpl; try done; by intros [= <-]. Qed.

(** A Volume the query returned as a number (or NULL) is that number (or 0)
    in the cleaned frame. *)
Lemma volume_value (rows : list summary_row) (f' : frame) (i : nat)
  (r : summary_row) (q : Q) :
  cleaned to_number (query_frame rows) = Ok f' ->
  rows !! i = Some r -> null_as_zero (Volume r) = Some q ->
  value f' "Volume" i = Some q.
Proof.
  intros Hclean Hr Hq.
  destruct (cleaned_inv to_number _ f' Hclean)
    as (volume & name & description & sd & pd & sq & pq & gross & margin &
        turnover & ratio & Hv & _ & _ & _ & _ & _ & _ & _ & _ & _ & _ & Hcol).
  injection Hv as <-.
  assert (Hi : map Volume rows !! i = Some (Volume r))
    by (by rewrite list_lookup_fmap, Hr).
  destruct (series_of_column_cell _ i _ Hi) as (o' & Ho' & Hfin).
  rewrite cells_fillna0 in Ho'.
  destruct (cells (series_of_column (map Volume rows)) !! i) as [o|] eqn:Ho;
    [|done].
  injection Ho' as <-.
  destruct (volume_cell to_number _ i o Ho) as (n & Hn & Hfl).
  rewrite (coerce_finite _ q (Hfin q Hq)) in Hfl.
  unfold value, cell. rewrite Hcol. simpl. rewrite Hn. simpl.
  by apply as_fl_finite.
Qed.

(** C5. When no product column is detected in purchases, the query text
    selects the literal NULL for ActualPrice and for Volume and does not
    name product_prices (so it joins nothing to it), the rows it returns do
    not depend on the price table, and after cleaning ActualPrice and Volume
    are 0 in every row. *)
Theorem no_product_column_no_enrichment (c : conn) (h h1 : heap) (df : loc) :
  detect_product_column (table_columns c "purchases") = None ->
  create_vendor_summary c h = (Ok df, h1) ->
  let query := build_query (detect_product_column (table_columns c "purchases")) in
  occurs "NULL AS ActualPrice" query = true /\
  occurs "NULL AS Volume" query = true /\
  occurs "product_prices" query = false /\
  (forall invoices rows sold prices,
     summary_query None invoices rows sold prices =
     summary_query None invoices rows sold []) /\
  exists df' f',
    clean_data to_number df h1 = (Ok df', h1 ++ [f']) /\
    forall i, i < n_rows f' ->
      value f' "ActualPrice" i = Some 0%Q /\ value f' "Volume" i = Some 0%Q.
Proof.
  intros Hnone Hcreate.
  destruct (create_vendor_summary_Ok c h h1 df Hcreate) as (rows & Hq & -> & ->).
  rewrite Hnone in *. cbv zeta.
  split; [by vm_compute|]. split; [by vm_compute|]. split; [by vm_compute|].
  split; [done|].
  destruct (run_summary_query_Ok _ _ _ Hq)
    as (invoices & bought & sold & _ & _ & _ & Hrows).
  destruct (clean_query_frame to_number h rows) as (f' & Hclean & Hlen & Hrun).
  exists (S (length h)), f'. split; [by rewrite <- app_assoc|].
  intros i Hi. rewrite Hlen in Hi.
  destruct (lookup_lt_is_Some_2 _ _ Hi) as (r & Hr).
  destruct (summary_query_unenriched None invoices (pur_rows bought) sold
              (default [] (product_prices (live c))) r eq_refl)
    as (Hprice & Hvolume).
  { rewrite <- Hrows. by eapply list_elem_of_lookup_2. }
  split.
  - apply (kept_value to_number rows f' "ActualPrice" (map ActualPrice rows) i
             (ActualPrice r)); try done.
    + by rewrite list_lookup_fmap, Hr.
    + by rewrite Hprice.
  - apply (volume_value rows f' i r); try done. by rewrite Hvolume.
Qed.

End Unenriched.

Example build_query_samples :
  occurs "LEFT JOIN product_prices pp ON p.SKU = pp.ProductID"
    (build_query (Some "SKU")) = true /\
  occurs "pp.Price AS ActualPrice" (build_query (Some "SKU")) = true /\
  occurs "NULL AS" (build_query (Some "SKU")) = false /\
  occurs "JOIN product_prices" (build_query None) = false.
Proof. repeat split; vm_compute; reflexivity. Qed.

Lemma purchases_all_reported_witness :
  (fst (create_vendor_summary (connect sample_store) []) = Ok 0 /\
   purchases (live (connect sample_store)) = Some sample_purchases /\
   unsold_purchase ∈ pur_rows sample_purchases) /\
  exists f' i,
    value f' "VendorNumber" i = Some (inject_Z 2) /\
    value f' "TotalSalesDollars" i = Some 0%Q /\
    value f' "FreightCost" i = Some 0%Q.
Proof.
  split; [split; [reflexivity|split; [reflexivity|right; left]]|].
  destruct (purchases_all_reported decimal_number (connect sample_store) []
              (snd (create_vendor_summary (connect sample_store) [])) 0
              sample_purchases unsold_purchase)
    as (df' & f' & i & _ & _ & Hvendor & _ & Hsales & Hfreight).
  - reflexivity.
  - reflexivity.
  - right; left.
  - exists f', i. split; [exact Hvendor|]. split.
    + apply Hsales. intros sold s [= <-] Hs.
      apply list_elem_of_singleton in Hs as ->. reflexivity.
    + apply Hfreight. intros invoices v [= <-] Hv.
      apply list_elem_of_singleton in Hv as ->. reflexivity.
Defined.

Lemma no_product_column_no_enrichment_witness :
  (detect_product_column (table_columns (connect sample_store) "purchases") = None /\
   fst (create_vendor_summary (connect sample_store) []) = Ok 0) /\
  exists f',
    snd (clean_data decimal_number 0
           (snd (create_vendor_summary (connect sample_store) []))) !! 1 = Some f' /\
    value f' "ActualPrice" 0 = Some 0%Q /\ value f' "Volume" 0 = Some 0%Q.
Proof.
  split; [split; reflexivity|].
  destruct (no_product_column_no_enrichment decimal_number (connect sample_store)
              [] (snd (create_vendor_summary (connect sample_store) [])) 0)
    as (_ & _ & _ & _ & df' & f' & Hrun & Hzero).
  - reflexivity.
  - reflexivity.
  - exists f'. split; [by rewrite Hrun|]. apply Hzero.
    vm_compute in Hrun. injection Hrun as _ <-. vm_compute. lia.
Defined.

(** ** The main script, run twice *)

Section Main.

Variable to_number : string -> option (Z + fl).


Lemma main_failure (inventory : store) :
  vendor_invoice inventory = None \/ purchases inventory = None \/
  sales inventory = None ->
  main to_number inventory = create_product_prices inventory.
Proof.
  destruct inventory as [invoices bought sold prices summary]. simpl.
  destruct invoices, bought, sold, prices, summary;
    intros [H | [H | H]]; try discriminate H; reflexivity.
Qed.



End Main.

Example main_sample :
  exists f',
    main decimal_number sample_store =
      replace_summary f' (create_product_prices sample_store) /\
    main decimal_number (main decimal_number sample_store) =
      main decimal_number sample_store /\
    column f' "VendorNumber" = Some (Int64 [2; 1]%Z) /\
    column f' "VendorName" = Some (Object [PStr "0"; PStr "Acme"]) /\
    column f' "TotalSalesDollars" = Some (Float64 [FFin 0; FFin 500]) /\
    column f' "FreightCost" = Some (Float64 [FFin 0; FFin (5 # 2)]) /\
    column f' "SalesToPurchaseRatio" =
      Some (Float64 [FFin (0 # 30); FFin (500 # 1)]).
Proof. eexists. repeat split; vm_compute; reflexivity. Qed.

(* ===================================================================== *)
(** * Further properties of the script *)
(* ===================================================================== *)

(** ** verify_and_create_tables: what it leaves alone *)

(** X1. The verifier changes no table that exists: the three base tables
    and the summary are what they were, a [product_prices] that exists
    keeps its rows (CREATE TABLE IF NOT EXISTS), and in that case the
    connection is not touched at all, not even by a commit. *)
Theorem verify_keeps_tables (c : conn) :
  let c' := snd (verify_and_create_tables c) in
  vendor_invoice (live c') = vendor_invoice (live c) /\
  purchases (live c') = purchases (live c) /\
  sales (live c') = sales (live c) /\
  vendor_sales_summary (live c') = vendor_sales_summary (live c) /\
  product_prices (live c') = Some (default [] (product_prices (live c))) /\
  (is_Some (product_prices (live c)) -> c' = c).
Proof.
  destruct c as [[invoices bought sold prices summary] committed].
  destruct invoices, bought, sold, prices, summary; cbn;
    repeat split; try done; by intros [? [=]].
Qed.

(** X3. Verifying twice is verifying once: the second call has the outcome
    of the first and changes nothing. *)
Theorem verify_twice (c : conn) :
  verify_and_create_tables (snd (verify_and_create_tables c)) =
  verify_and_create_tables c.
Proof.
  destruct c as [[invoices bought sold prices summary] committed].
  destruct invoices, bought, sold, prices, summary; reflexivity.
Qed.

(** ** create_vendor_summary: when it runs and what it returns *)




(** ** clean_data on any frame *)

Lemma fillna0_idemp (s : series) : fillna0 (fillna0 s) = fillna0 s.
Proof.
  destruct s as [xs|xs|xs]; simpl; [done| |]; f_equal; rewrite map_map;
    apply map_ext; intros x.
  - apply zero_if_nan_idemp.
  - unfold zero_if_na. destruct (isna x) eqn:Hx; [done|]. by rewrite Hx.
Qed.

Lemma rstrip_idemp (s : string) : rstrip (rstrip s) = rstrip s.
Proof.
  induction s as [|c s IH]; simpl; [done|].
  destruct (rstrip s) as [|a kept] eqn:Hs.
  - destruct (is_space c) eqn:Hc; simpl; [done|]. by rewrite Hc.
  - change (rstrip (String c (String a kept))) with
      (match rstrip (String a kept) with
       | EmptyString => if is_space c then EmptyString else String c EmptyString
       | kept' => String c kept'
       end).
    by rewrite IH.
Qed.

Lemma lstrip_fixed (s : string) :
  (forall c, first_char s = Some c -> is_space c = false) -> lstrip s = s.
Proof.
  destruct s as [|a s]; simpl; [done|]. intros H. by rewrite (H a).
Qed.

Lemma strip_idemp (s : string) : strip (strip s) = strip s.
Proof.
  unfold strip at 1. rewrite lstrip_fixed by apply strip_spec.
  unfold strip. apply rstrip_idemp.
Qed.

Section AnyFrame.

Variable to_number : string -> option (Z + fl).

(** The head statement of [cleaned] reads a column. *)
Ltac head_get :=
  unfold get at 1; rewrite ?column_set_column;
  cbn [String.eqb Ascii.eqb Bool.eqb]; rewrite ?column_fillna.

(** [cleaned] succeeds when the columns it reads exist and its four
    computations do, and this is the frame it returns. *)
Lemma cleaned_intro (f : frame)
  (volume name description sd pd sq pq gross margin turnover ratio : series) :
  column f "Volume" = Some volume ->
  column f "VendorName" = Some name ->
  column f "Description" = Some description ->
  column f "TotalSalesDollars" = Some sd ->
  column f "TotalPurchaseDollars" = Some pd ->
  column f "TotalSalesQuantity" = Some sq ->
  column f "TotalPurchaseQuantity" = Some pq ->
  series_sub (fillna0 sd) (fillna0 pd) = Ok gross ->
  series_div gross (replace_0_1 (fillna0 sd)) = Ok margin ->
  series_div (fillna0 sq) (replace_0_1 (fillna0 pq)) = Ok turnover ->
  series_div (fillna0 sd) (replace_0_1 (fillna0 pd)) = Ok ratio ->
  cleaned to_number f =
  Ok (set_column "SalesToPurchaseRatio" ratio
        (set_column "StockTurnover" turnover
           (set_column "ProfitMargin" margin
              (set_column "GrossProfit" gross
                 (set_column "Description"
                    (Object (map (fun o => PStr (strip (py_str o)))
                                 (cells (fillna0 description))))
                    (set_column "VendorName"
                       (Object (map (fun o => PStr (strip (py_str o)))
                                    (cells (fillna0 name))))
                       (set_column "Volume"
                          (fillna0 (to_numeric to_number (fillna0 volume)))
                          (map (fun cs => (fst cs, fillna0 (snd cs))) f)))))))).
Proof.
  intros Hv Hn Hd Hsd Hpd Hsq Hpq Hgross Hmargin Hturnover Hratio.
  unfold cleaned. cbv zeta.
  head_get. rewrite Hv. cbn [fmap option_fmap option_map rbind].
  head_get. rewrite Hn. cbn [fmap option_fmap option_map rbind].
  rewrite str_strip_astype_str. cbn [rbind].
  head_get. rewrite Hd. cbn [fmap option_fmap option_map rbind].
  rewrite str_strip_astype_str. cbn [rbind].
  head_get. rewrite Hsd. cbn [fmap option_fmap option_map rbind].
  head_get. rewrite Hpd. cbn [fmap option_fmap option_map rbind].
  rewrite Hgross. cbn [rbind].
  head_get. cbn [rbind].
  head_get. rewrite Hsd. cbn [fmap option_fmap option_map rbind].
  rewrite Hmargin. cbn [rbind].
  head_get. rewrite Hsq. cbn [fmap option_fmap option_map rbind].
  head_get. rewrite Hpq. cbn [fmap option_fmap option_map rbind].
  rewrite Hturnover. cbn [rbind].
  head_get. rewrite Hsd. cbn [fmap option_fmap option_map rbind].
  head_get. rewrite Hpd. cbn [fmap option_fmap option_map rbind].
  rewrite Hratio. reflexivity.
Qed.

End AnyFrame.











Ltac in_list := repeat constructor.

Section AnyFrameTheorems.

Variable to_number : string -> option (Z + fl).





End AnyFrameTheorems.

Lemma map_fst_set_column (c : string) (s : series) (f : frame) :
  is_Some (column f c) -> map fst (set_column c s f) = map fst f.
Proof.
  induction f as [|[c0 s0] f IH]; simpl; [by intros [? [=]]|].
  destruct (String.eqb c c0) eqn:Hc; simpl.
  - apply String.eqb_eq in Hc as ->. done.
  - intros Hf. by rewrite IH.
Qed.

Lemma column_set_is_Some (c c' : string) (s : series) (f : frame) :
  is_Some (column f c) -> is_Some (column (set_column c' s f) c).
Proof.
  intros Hc. rewrite column_set_column. by destruct (String.eqb c c').
Qed.

Lemma map_fst_fillna (f : frame) :
  map fst (map (fun cs => (fst cs, fillna0 (snd cs))) f) = map fst f.
Proof. rewrite map_map. by apply map_ext. Qed.

Lemma stripped_column_fixed (xs : list pyobj) :
  Object (map (fun o => PStr (strip (py_str o)))
            (cells (fillna0 (Object (map (fun o => PStr (strip (py_str o))) xs)))))
  = Object (map (fun o => PStr (strip (py_str o))) xs).
Proof.
  simpl. f_equal. rewrite !map_map. apply map_ext. intros o. simpl.
  by rewrite strip_idemp.
Qed.

Section Twice.

Variable to_number : string -> option (Z + fl).

Lemma volume_column_fixed (w : series) :
  fillna0 (to_numeric to_number (fillna0 (fillna0 (to_numeric to_number w)))) =
  fillna0 (to_numeric to_number w).
Proof.
  rewrite fillna0_idemp.
  assert (Hnum : forall v, (exists xs, v = Int64 xs) \/ (exists xs, v = Float64 xs) ->
                           fillna0 (to_numeric to_number (fillna0 v)) = fillna0 v).
  { intros v [[xs ->] | [xs ->]]; simpl; [done|].
    f_equal. rewrite map_map. apply map_ext, zero_if_nan_idemp. }
  apply Hnum. destruct w as [xs|xs|xs]; simpl; eauto.
  destruct (mapM only_int _); eauto.
Qed.

(** X8. Cleaning a cleaned frame changes nothing: [clean_data] returns on
    the frame it has returned, and the frame it then returns has the same
    columns in the same order, with the same cells. *)
Theorem clean_data_twice (h h1 : heap) (df df1 : loc) (f : frame) :
  h !! df = Some f ->
  clean_data to_number df h = (Ok df1, h1) ->
  exists f1 f2,
    h1 !! df1 = Some f1 /\
    clean_data to_number df1 h1 = (Ok (length h1), h1 ++ [f2]) /\
    map fst f2 = map fst f1 /\
    forall c, column f2 c = column f1 c.
Proof.
  intros Hf Hrun.
  destruct (clean_data_Ok _ _ _ _ _ _ Hf Hrun) as (f1 & Hclean & -> & ->).
  destruct (cleaned_inv to_number f f1 Hclean)
    as (volume & name & description & sd & pd & sq & pq & gross & margin &
        turnover & ratio & Hv & Hn & Hd & Hsd & Hpd & Hsq & Hpq &
        Hgross & Hmargin & Hturnover & Hratio & Hcol).
  assert (Hclean2 :
            cleaned to_number f1 =
            Ok (set_column "SalesToPurchaseRatio" ratio
                  (set_column "StockTurnover" turnover
                     (set_column "ProfitMargin" margin
                        (set_column "GrossProfit" gross
                           (set_column "Description"
                              (Object (map (fun o => PStr (strip (py_str o)))
                                 (cells (fillna0 (Object (map (fun o => PStr (strip (py_str o)))
                                    (cells (fillna0 description))))))))
                              (set_column "VendorName"
                                 (Object (map (fun o => PStr (strip (py_str o)))
                                    (cells (fillna0 (Object (map (fun o => PStr (strip (py_str o)))
                                       (cells (fillna0 name))))))))
                                 (set_column "Volume"
                                    (fillna0 (to_numeric to_number
                                       (fillna0 (fillna0 (to_numeric to_number
                                                            (fillna0 volume))))))
                                    (map (fun cs => (fst cs, fillna0 (snd cs))) f1))))))))).
  { apply (cleaned_intro to_number f1 _ _ _ (fillna0 sd) (fillna0 pd)
             (fillna0 sq) (fillna0 pq));
      rewrite ?Hcol, ?fillna0_idemp; simpl;
      rewrite ?Hsd, ?Hpd, ?Hsq, ?Hpq; done. }
  rewrite !stripped_column_fixed, volume_column_fixed in Hclean2.
  eexists f1, _. split; [apply read_last|].
  destruct (clean_data_run to_number (h ++ [f1]) (length h) f1 (read_last _ _))
    as (g & Hg & Hgf).
  rewrite Hclean2 in Hg. rewrite (Hgf _ Hclean2) in Hg.
  split; [rewrite Hg; done|].
  assert (Hin : forall c, c ∈ assigned_columns ->
                  is_Some (column (map (fun cs => (fst cs, fillna0 (snd cs))) f1) c)).
  { intros c Hc. rewrite column_fillna, Hcol.
    repeat (apply elem_of_cons in Hc as [-> | Hc]; [by eexists|]).
    by apply elem_of_nil in Hc. }
  split.
  - rewrite !map_fst_set_column, map_fst_fillna;
      [done|repeat apply column_set_is_Some; apply Hin; in_list..].
  - intros c. rewrite !column_set_column, column_fillna, (Hcol c).
    destruct (String.eqb c "SalesToPurchaseRatio") eqn:E1; [done|].
    destruct (String.eqb c "StockTurnover") eqn:E2; [done|].
    destruct (String.eqb c "ProfitMargin") eqn:E3; [done|].
    destruct (String.eqb c "GrossProfit") eqn:E4; [done|].
    destruct (String.eqb c "Description") eqn:E5; [done|].
    destruct (String.eqb c "VendorName") eqn:E6; [done|].
    destruct (String.eqb c "Volume") eqn:E7; [done|].
    destruct (column f c); simpl; [|done]. by rewrite fillna0_idemp.
Qed.

End Twice.




Lemma clean_data_twice_witness :
  [sample_frame] !! 0 = Some sample_frame /\
  exists f1 f2,
    clean_data decimal_number 1 (snd (clean_data decimal_number 0 [sample_frame]))
      = (Ok 2, [sample_frame; f1; f2]) /\
    column f2 "VendorName" = column f1 "VendorName".
Proof.
  split; [reflexivity|].
  destruct (clean_data_twice decimal_number [sample_frame]
              (snd (clean_data decimal_number 0 [sample_frame])) 0 1
              sample_frame) as (f1 & f2 & Hf1 & Hrun & _ & Hcol).
  - reflexivity.
  - vm_compute. reflexivity.
  - exists f1, f2. split; [|apply Hcol].
    rewrite Hrun. vm_compute in Hf1. injection Hf1 as <-. reflexivity.
Defined.

(** ** The query: what a group holds *)

Lemma filter_none {A} (P : A -> bool) (l : list A) :
  (forall x, x ∈ l -> P x = false) -> List.filter P l = [].
Proof.
  induction l as [|a l IH]; simpl; [done|]. intros H.
  rewrite (H a) by left. apply IH. intros x Hx. apply H. by right.
Qed.

Section GroupSpec.

Context {A : Type} (same : A -> A -> bool).
Hypothesis same_refl : forall a, same a a = true.
Hypothesis same_sym : forall a b, same a b = same b a.
Hypothesis same_trans :
  forall a b c, same a b = true -> same b c = true -> same a c = true.

Lemma group_by_snoc (l : list A) (x : A) :
  group_by same (l ++ [x]) = add_to_groups same x (group_by same l).
Proof. unfold group_by. by rewrite fold_left_app. Qed.

Lemma add_to_groups_cases (x : A) (gs : list (A * list A)) :
  (exists gs1 r ms gs2,
     gs = gs1 ++ (r, ms) :: gs2 /\ same r x = true /\
     Forall (fun g => same (fst g) x = false) gs1 /\
     add_to_groups same x gs = gs1 ++ (r, ms ++ [x]) :: gs2) \/
  (Forall (fun g => same (fst g) x = false) gs /\
   add_to_groups same x gs = gs ++ [(x, [])]).
Proof.
  induction gs as [|[r ms] gs IH]; simpl.
  - right. by split.
  - destruct (same r x) eqn:Hr.
    + left. exists [], r, ms, gs. by repeat split.
    + destruct IH as [(gs1 & r' & ms' & gs2 & -> & Hr' & Hgs1 & ->) | [Hgs ->]].
      * left. exists ((r, ms) :: gs1), r', ms', gs2.
        repeat split; try done. by apply Forall_cons.
      * right. split; [by apply Forall_cons|done].
Qed.

Lemma apart_snoc (ks : list A) (x : A) :
  apart same ks -> Forall (fun k => same k x = false) ks ->
  apart same (ks ++ [x]).
Proof.
  induction ks as [|k ks IH]; simpl; [done|].
  intros [Hk Hks] [Hkx Hrest]%Forall_cons. split; [|by apply IH].
  apply Forall_app. split; [done|]. by apply Forall_singleton.
Qed.

Lemma apart_app_cons (l1 : list A) (a : A) (l2 : list A) :
  apart same (l1 ++ a :: l2) -> Forall (fun y => same a y = false) l2.
Proof.
  induction l1 as [|b l1 IH]; simpl; [by intros [? _]|].
  intros [_ H]. by apply IH.
Qed.

(** The groups of [group_by]: their first rows are apart, and a group holds,
    in their order, the rows that are the same as its first row. *)
Lemma group_by_spec (l : list A) :
  apart same (map fst (group_by same l)) /\
  forall g, g ∈ group_by same l ->
            group_rows g = List.filter (same (fst g)) l.
Proof.
  induction l as [|x l [IHkeys IHrows]] using rev_ind; [split; [done|]|].
  { intros g Hg. by apply elem_of_nil in Hg. }
  rewrite group_by_snoc.
  assert (Hother : forall g, g ∈ group_by same l -> same (fst g) x = false ->
                     group_rows g = List.filter (same (fst g)) (l ++ [x])).
  { intros g Hg Hx. rewrite List.filter_app. simpl. rewrite Hx, app_nil_r.
    by apply IHrows. }
  destruct (add_to_groups_cases x (group_by same l))
    as [(gs1 & r & ms & gs2 & Hgs & Hr & Hgs1 & ->) | [Hgs ->]].
  - split.
    + rewrite Hgs in IHkeys. by rewrite !map_app in *.
    + intros g [Hg | [-> | Hg]%elem_of_cons]%elem_of_app.
      * apply Hother; [rewrite Hgs; apply elem_of_app; by left|].
        rewrite Forall_forall in Hgs1. by apply Hgs1.
      * unfold group_rows. simpl. rewrite List.filter_app. simpl. rewrite Hr.
        rewrite app_comm_cons. f_equal.
        apply (IHrows (r, ms)). rewrite Hgs. apply elem_of_app. right. left.
      * apply Hother; [rewrite Hgs; apply elem_of_app; right; by right|].
        rewrite Hgs, map_app in IHkeys. simpl in IHkeys.
        apply apart_app_cons in IHkeys. rewrite Forall_forall in IHkeys.
        specialize (IHkeys (fst g) (list_elem_of_fmap_2 fst _ _ Hg)).
        destruct (same (fst g) x) eqn:Hgx; [|done].
        rewrite same_sym in Hgx.
        by rewrite (same_trans _ _ _ Hr Hgx) in IHkeys.
  - rewrite Forall_forall in Hgs. split.
    + rewrite map_app. apply apart_snoc; [done|].
      apply Forall_forall. intros k (g & -> & Hg)%list_elem_of_fmap_1. auto.
    + intros g [Hg | ->%list_elem_of_singleton]%elem_of_app.
      * apply Hother; auto.
      * unfold group_rows. simpl. rewrite List.filter_app. simpl.
        rewrite same_refl. rewrite filter_none; [done|].
        intros y Hy.
        destruct (group_by_covers same l y same_refl Hy) as (g & Hg & Hgy).
        destruct (same x y) eqn:Hxy; [|done].
        rewrite same_sym in Hxy.
        pose proof (same_trans _ _ _ Hgy Hxy) as Hgx.
        by rewrite (Hgs g Hg) in Hgx.
Qed.

End GroupSpec.

Lemma id_is_sym (a b : option Z) : id_is a b = id_is b a.
Proof. destruct a, b; simpl; try done. apply Z.eqb_sym. Qed.

Lemma id_is_trans (a b c : option Z) :
  id_is a b = true -> id_is b c = true -> id_is a c = true.
Proof. rewrite !id_is_eq. congruence. Qed.



Lemma id_eq_true (a b : option Z) :
  id_eq a b = true <-> exists k, a = Some k /\ b = Some k.
Proof.
  destruct a as [x|], b as [y|]; simpl; split;
    try done; try (by intros (k & [=] & [=])).
  - intros ->%Z.eqb_eq. by exists y.
  - intros (k & [= ->] & [= ->]). apply Z.eqb_refl.
Qed.

Lemma id_eq_is (a b : option Z) : id_eq a b = true -> id_is a b = true.
Proof. intros (k & -> & ->)%id_eq_true. by apply id_is_eq. Qed.



Lemma left_join_inv {A B} (on : A -> B -> bool) (l : list A) (r : list B)
  (x : A) (o : option B) :
  (x, o) ∈ left_join on l r ->
  x ∈ l /\
  match o with
  | Some y => y ∈ r /\ on x y = true
  | None => forall y, y ∈ r -> on x y = false
  end.
Proof.
  intros Hx. split; [by eapply left_join_left|].
  unfold left_join in Hx.
  apply list_elem_of_In, in_flat_map in Hx as (x' & _ & Hin).
  destruct (List.filter (on x') r) as [|y matches] eqn:Hf.
  - destruct Hin as [[= <- <-]|[]]. intros y Hy.
    destruct (on x' y) eqn:Hon; [|done].
    assert (In y (List.filter (on x') r))
      by (apply filter_In; split; [by apply list_elem_of_In|done]).
    rewrite Hf in *. done.
  - apply in_map_iff in Hin as (y' & [= <- <-] & Hy').
    rewrite <- Hf in Hy'. apply filter_In in Hy' as [Hy' Hon].
    split; [by apply list_elem_of_In|done].
Qed.

(** A row of the result comes from a purchase group, a sales group or none,
    and a freight group or none. *)
Lemma summary_query_row (product_col : option string)
  (invoices : list vendor_invoice_row) (rows : list purchases_row)
  (sold : list sales_row) (prices : list product_prices_row) (r : summary_row) :
  r ∈ summary_query product_col invoices rows sold prices ->
  exists ps ss fs,
    r = project (ps, ss, fs) /\
    ps ∈ PurchaseSummary product_col rows prices /\
    match ss with
    | Some s => s ∈ SalesSummary sold /\ on_sales ps s = true
    | None => forall s, s ∈ SalesSummary sold -> on_sales ps s = false
    end /\
    match fs with
    | Some v => v ∈ FreightSummary invoices /\ on_freight (ps, ss) v = true
    | None => forall v, v ∈ FreightSummary invoices -> on_freight (ps, ss) v = false
    end.
Proof.
  unfold summary_query. rewrite merge_sort_Permutation.
  intros ([[ps ss] fs] & -> & Hj)%list_elem_of_fmap_1.
  apply left_join_inv in Hj as [Hj Hfs].
  apply left_join_inv in Hj as [Hps Hss].
  by exists ps, ss, fs.
Qed.

(** X9. FreightCost of a row of the result is SUM(Freight) over the
    invoices of the row's vendor, all of them and no other: NULL when the
    vendor has no invoice (or the row no vendor), as SUM gives it. *)
Theorem freight_cost_is_vendor_total (product_col : option string)
  (invoices : list vendor_invoice_row) (rows : list purchases_row)
  (sold : list sales_row) (prices : list product_prices_row) :
  Forall (fun r =>
            FreightCost r =
            sql_sum (map vi_Freight
                       (List.filter
                          (fun v => id_eq (VendorNumber r) (vi_VendorNumber v))
                          invoices)))
         (summary_query product_col invoices rows sold prices).
Proof.
  apply Forall_forall. intros r Hr.
  destruct (summary_query_row _ _ _ _ _ _ Hr)
    as (ps & ss & fs & -> & _ & _ & Hfs).
  set (same := fun a b : vendor_invoice_row =>
                 id_is (vi_VendorNumber a) (vi_VendorNumber b)).
  assert (Hrefl : forall a, same a a = true) by (intros a; by apply id_is_eq).
  assert (Hsym : forall a b, same a b = same b a)
    by (intros a b; apply id_is_sym).
  assert (Htrans : forall a b c, same a b = true -> same b c = true ->
                                 same a c = true)
    by (intros a b c; apply id_is_trans).
  destruct fs as [fs|]; simpl.
  - destruct Hfs as [Hin Hon]. unfold FreightSummary in Hin.
    apply list_elem_of_fmap_1 in Hin as (g & -> & Hg).
    pose proof (proj2 (group_by_spec same Hrefl Hsym Htrans invoices) g Hg)
      as Hrows.
    cbn [fs_FreightCost]. rewrite Hrows.
    unfold on_freight in Hon. simpl in Hon.
    apply id_eq_true in Hon as (k & Hk & Hg').
    do 2 f_equal. apply List.filter_ext. intros v. unfold same.
    rewrite Hk, Hg'. by destruct (vi_VendorNumber v).
  - rewrite filter_none; [done|]. intros v Hv.
    destruct (id_eq (ps_VendorNumber ps) (vi_VendorNumber v)) eqn:Heq; [|done].
    destruct (group_by_covers same invoices v Hrefl Hv) as (g & Hg & Hgv).
    apply id_is_eq in Hgv.
    rewrite <- (Hfs {| fs_VendorNumber := vi_VendorNumber (fst g);
                       fs_FreightCost := sql_sum (map vi_Freight (group_rows g)) |}).
    + unfold on_freight. simpl. by rewrite Hgv.
    + unfold FreightSummary.
      by apply (list_elem_of_fmap_2
                  (fun g => {| fs_VendorNumber := vi_VendorNumber (fst g);
                               fs_FreightCost := sql_sum (map vi_Freight (group_rows g)) |})).
Qed.

(** X10. TotalSalesQuantity and TotalSalesDollars of a row of the result are
    the SUMs over the sales rows with the row's vendor and brand, all of
    them and no other: NULL when there is none. *)
Theorem sales_totals_are_vendor_brand_totals (product_col : option string)
  (invoices : list vendor_invoice_row) (rows : list purchases_row)
  (sold : list sales_row) (prices : list product_prices_row) :
  Forall (fun r =>
            let matching :=
              List.filter (fun s => id_eq (VendorNumber r) (s_VendorNo s) &&
                                    id_eq (Brand r) (s_Brand s)) sold in
            TotalSalesQuantity r = sql_sum (map s_SalesQuantity matching) /\
            TotalSalesDollars r = sql_sum (map s_SalesDollars matching))
         (summary_query product_col invoices rows sold prices).
Proof.
  apply Forall_forall. intros r Hr.
  destruct (summary_query_row _ _ _ _ _ _ Hr)
    as (ps & ss & fs & -> & _ & Hss & _).
  set (same := fun a b : sales_row =>
                 id_is (s_VendorNo a) (s_VendorNo b) &&
                 id_is (s_Brand a) (s_Brand b)).
  assert (Hrefl : forall a, same a a = true).
  { intros a. unfold same. by rewrite !(proj2 (id_is_eq _ _) eq_refl). }
  assert (Hsym : forall a b, same a b = same b a).
  { intros a b. unfold same.
    by rewrite (id_is_sym (s_VendorNo a)), (id_is_sym (s_Brand a)). }
  assert (Htrans : forall a b c, same a b = true -> same b c = true ->
                                 same a c = true).
  { intros a b c. unfold same. rewrite !andb_true_iff.
    intros [? ?] [? ?]. split; eauto using id_is_trans. }
  cbv zeta. destruct ss as [ss|]; cbn [project TotalSalesQuantity
    TotalSalesDollars VendorNumber Brand mbind option_bind].
  - destruct Hss as [Hin Hon]. unfold SalesSummary in Hin.
    apply list_elem_of_fmap_1 in Hin as (g & -> & Hg).
    pose proof (proj2 (group_by_spec same Hrefl Hsym Htrans sold) g Hg)
      as Hrows.
    cbn [ss_TotalSalesQuantity ss_TotalSalesDollars]. rewrite Hrows.
    unfold on_sales in Hon. cbn [ss_VendorNo ss_Brand] in Hon.
    apply andb_true_iff in Hon as [(k & Hk & Hg1)%id_eq_true
                                     (b & Hb & Hg2)%id_eq_true].
    assert (Hext : forall s, same (fst g) s =
                     id_eq (ps_VendorNumber ps) (s_VendorNo s) &&
                     id_eq (ps_Brand ps) (s_Brand s)).
    { intros s. unfold same. rewrite Hk, Hb, Hg1, Hg2.
      by destruct (s_VendorNo s), (s_Brand s). }
    by rewrite (List.filter_ext _ _ Hext).
  - rewrite filter_none; [done|]. intros s Hs.
    destruct (id_eq (ps_VendorNumber ps) (s_VendorNo s) &&
              id_eq (ps_Brand ps) (s_Brand s)) eqn:Heq; [|done].
    destruct (group_by_covers same sold s Hrefl Hs) as (g & Hg & Hgs).
    apply andb_true_iff in Hgs as [Hg1%id_is_eq Hg2%id_is_eq].
    rewrite <- (Hss {| ss_VendorNo := s_VendorNo (fst g);
                       ss_Brand := s_Brand (fst g);
                       ss_TotalSalesQuantity :=
                         sql_sum (map s_SalesQuantity (group_rows g));
                       ss_TotalSalesDollars :=
                         sql_sum (map s_SalesDollars (group_rows g)) |}).
    + unfold on_sales. cbn [ss_VendorNo ss_Brand]. by rewrite Hg1, Hg2.
    + unfold SalesSummary.
      by apply (list_elem_of_fmap_2
                  (fun g => {| ss_VendorNo := s_VendorNo (fst g);
                               ss_Brand := s_Brand (fst g);
                               ss_TotalSalesQuantity :=
                                 sql_sum (map s_SalesQuantity (group_rows g));
                               ss_TotalSalesDollars :=
                                 sql_sum (map s_SalesDollars (group_rows g)) |})).
Qed.


(** ** The query: one row for one group *)







(** ** The query: enrichment *)

(** X13. With a product column, every row of the result shows the vendor and
    brand of a purchase and either the Price and Volume of a price row whose
    ProductID is that purchase's product, or NULL for both when no price row
    has that product (or the purchase has none). *)
Theorem enrichment_is_by_product (a : ascii) (rest : string)
  (invoices : list vendor_invoice_row) (rows : list purchases_row)
  (sold : list sales_row) (prices : list product_prices_row) :
  let col := String a rest in
  Forall (fun r =>
            exists p,
              p ∈ rows /\
              VendorNumber r = p_VendorNumber p /\ Brand r = p_Brand p /\
              ((exists pp,
                  pp ∈ prices /\
                  id_eq (p_get col (p_other p)) (pp_ProductID pp) = true /\
                  ActualPrice r = pp_Price pp /\ Volume r = pp_Volume pp) \/
               ((forall pp, pp ∈ prices ->
                   id_eq (p_get col (p_other p)) (pp_ProductID pp) = false) /\
                ActualPrice r = SNull /\ Volume r = SNull)))
         (summary_query (Some col) invoices rows sold prices).
Proof.
  intros col. apply Forall_forall. intros r Hr.
  destruct (summary_query_row _ _ _ _ _ _ Hr)
    as (ps & ss & fs & -> & Hps & _ & _).
  unfold PurchaseSummary in Hps.
  apply list_elem_of_fmap_1 in Hps as (g & -> & Hg).
  apply group_by_first in Hg. destruct (fst g) as [p o] eqn:Hfst.
  unfold purchases_joined in Hg. cbn [truthy col] in Hg.
  apply left_join_inv in Hg as [Hp Ho].
  exists p. split; [done|].
  cbn [project VendorNumber Brand ActualPrice Volume ps_VendorNumber ps_Brand
       ps_ActualPrice ps_Volume].
  split; [done|]. split; [done|].
  unfold actual_price_of, volume_of. cbn [truthy col snd].
  destruct o as [pp|].
  - left. exists pp. by destruct Ho.
  - by right.
Qed.





(** ** The main script: what a run leaves in the file *)

Section Runs.

Variable to_number : string -> option (Z + fl).



(** X16. A run on a file that lacks one of the three base tables writes no
    summary: the summary table is what it was (the one of an earlier run, or
    none).  The price table is created all the same, because its creation
    is committed before the missing tables are reported. *)
Theorem main_without_base_table (inventory : store) :
  vendor_invoice inventory = None \/ purchases inventory = None \/
  sales inventory = None ->
  vendor_sales_summary (main to_number inventory) =
    vendor_sales_summary inventory /\
  product_prices (main to_number inventory) =
    Some (default [] (product_prices inventory)) /\
  table_names (main to_number inventory) =
    table_names (create_product_prices inventory).
Proof.
  intros Hmissing. rewrite (main_failure to_number inventory Hmissing).
  split; [done|]. split; [|done].
  cbn [create_product_prices product_prices].
  by destruct (product_prices inventory).
Qed.

End Runs.


Lemma main_without_base_table_witness :
  vendor_sales_summary
    (main decimal_number
       {| vendor_invoice := None; purchases := Some sample_purchases;
          sales := Some []; product_prices := None;
          vendor_sales_summary := Some sample_frame |}) = Some sample_frame /\
  product_prices
    (main decimal_number
       {| vendor_invoice := None; purchases := Some sample_purchases;
          sales := Some []; product_prices := None;
          vendor_sales_summary := Some sample_frame |}) = Some [] /\
  table_names
    (main decimal_number
       {| vendor_invoice := None; purchases := Some sample_purchases;
          sales := Some []; product_prices := None;
          vendor_sales_summary := Some sample_frame |}) =
    ["purchases"; "sales"; "product_prices"; "vendor_sales_summary"].
Proof.
  apply (main_without_base_table decimal_number
           {| vendor_invoice := None; purchases := Some sample_purchases;
              sales := Some []; product_prices := None;
              vendor_sales_summary := Some sample_frame |}).
  by left.
Defined.
